(** * Speech service of the restaurant kiosk: lifecycle, transcription, synthesis

    Shallow embedding of [python_service/services/speech_service.py]
    (class [SpeechService]) and the properties its specification states.

    Modelling conventions.
    - The service object is a record with the three attributes that the
      methods read and assign; every method takes the record and returns the
      (possibly updated) record, the way a Python method mutates [self].
    - Everything outside the class (model loaders, both engines, the temporary
      file API, librosa, the sample conversion of soundfile, torch) is a
      collaborator: its answers are
      the fields of [collaborators], its observable effects are recorded in
      [world] (the staging files that exist, and the log of collaborator
      calls).
    - [await loop.run_in_executor(None, f, ...)] is the call [f ...]: one
      request is followed from start to end.
    - An exception is a value of [result]; a method that raises still returns
      the service record and the world it leaves behind.  [except Exception]
      catches the exceptions that derive from [Exception] and lets the other
      [BaseException]s through: the cancellation of the request at an
      [await], [KeyboardInterrupt], [SystemExit].  A collaborator that is
      awaited answers [Raise CancelledError] when the request is cancelled
      while it runs.
    - A Python [str] is held as its UTF-8 encoding; its length and the
      characters that [strip] removes are those of its code points.
    - Python floats: the speed factor and the waveform samples are only
      compared, inverted, truncated and copied, so they are rationals [Q]
      with exact arithmetic; on the speeds that the request model accepts,
      0.5 to 2.0, the inverse and the truncation are those of binary
      floating point.  Log-probabilities are summed, divided and
      exponentiated, so they are reals [R]. *)

From Stdlib Require Import Reals QArith Qround Lra Lia.
From stdpp Require Import gmap strings list pretty.

Local Open Scope string_scope.

(** ** Exceptions and results *)

Inductive exn : Type :=
  | RuntimeError (msg : string)
  | ZeroDivisionError (msg : string)
  | ValueError (msg : string)
  | OSError (msg : string)
  | OtherException (msg : string)      (* any other subclass of Exception *)
  | CancelledError                      (* asyncio.CancelledError *)
  | KeyboardInterrupt
  | SystemExit (code : Z).

(** [isinstance(e, Exception)]: the last three derive from [BaseException]
    only. *)
Definition is_exception (e : exn) : bool :=
  match e with
  | CancelledError | KeyboardInterrupt | SystemExit _ => false
  | _ => true
  end.

(** [str(e)] *)
Definition str (e : exn) : string :=
  match e with
  | RuntimeError m | ZeroDivisionError m | ValueError m
  | OSError m | OtherException m => m
  | CancelledError | KeyboardInterrupt => ""
  | SystemExit code => pretty code
  end.

Inductive result (A : Type) : Type :=
  | Ok (a : A)
  | Raise (e : exn).
Arguments Ok {A} a.
Arguments Raise {A} e.

Definition bind {A B} (r : result A) (k : A -> result B) : result B :=
  match r with
  | Ok a => k a
  | Raise e => Raise e
  end.

Notation "x <- r ;; k" := (bind r (fun x => k))
  (at level 100, r at next level, right associativity).

(** [try: body  except Exception as e: raise RuntimeError(prefix + str(e))] *)
Definition reraise_as_runtime {A} (prefix : string) (r : result A) : result A :=
  match r with
  | Ok a => Ok a
  | Raise e =>
    if is_exception e then Raise (RuntimeError (prefix ++ str e))
    else Raise e                       (* not caught *)
  end.

(** ** Data *)

Definition bytes := list Byte.byte.
Definition path := string.
Definition waveform := list Q.

(** A loaded model: an opaque object. *)
Inductive handle : Type := Handle (id : nat).

(** One element of [result["segments"]]; [avg_logprob] may be missing. *)
Record segment : Type := { avg_logprob : option R }.

(** The dictionary returned by [whisper_model.transcribe]. *)
Record whisper_result : Type := {
  wr_text : string;
  wr_language : option string;
  wr_duration : option Q;
  wr_segments : option (list segment)
}.

(** The dictionary returned by [transcribe_audio]. *)
Record transcription : Type := {
  text : string;
  language : string;
  confidence : R;
  duration : Q
}.

(** The dictionary returned by [get_health_status]. *)
Record health_status : Type := {
  whisper : bool;
  kokoro : bool;
  initialized : bool
}.

(** ** Collaborators and the world *)

Inductive call : Type :=
  | LoadWhisper (variant : string)
  | LoadKokoro (lang_code : string)
  | WhisperTranscribe (model : handle) (audio_path : path) (lang : option string)
  | KokoroSynthesize (pipeline : handle) (txt voice : string)
  | CudaEmptyCache.

Record world : Type := {
  files : gset path;     (* staging files present on disk *)
  calls : list call      (* collaborator calls, oldest first *)
}.

Definition record_call (c : call) (w : world) : world :=
  {| files := files w; calls := calls w ++ [c] |}.

Record collaborators : Type := {
  (* whisper.load_model(name) *)
  whisper_load_model : string -> result handle;
  (* KPipeline(lang_code=...) *)
  KPipeline : string -> result handle;
  (* tempfile.NamedTemporaryFile(...): [Some e] when creating the file raises *)
  temp_create_error : option exn;
  (* temp_file.write(data): [Some e] when writing raises *)
  temp_write_error : bytes -> option exn;
  (* model.transcribe(path, **options) *)
  whisper_transcribe : handle -> path -> option string -> result whisper_result;
  (* list(pipeline(text, voice=voice)): the drained generator of (gs, ps, audio) *)
  kokoro_generate : handle -> string -> string -> result (list (string * string * waveform));
  (* librosa.effects.time_stretch, [None] when [import librosa] raises ImportError *)
  librosa_time_stretch : option (waveform -> Q -> result waveform);
  (* inside sf.write: the 16-bit integer that libsndfile stores for a float
     sample (PCM_16 is the subtype that soundfile gives to format='WAV') *)
  sf_pcm_16 : Q -> Z;
  (* torch.cuda.is_available() *)
  cuda_is_available : bool
}.

(** ** The service object *)

Record SpeechService : Type := {
  whisper_model : option handle;
  kokoro_pipeline : option handle;
  _initialized : bool
}.

(** [SpeechService.__init__] *)
Definition __init__ : SpeechService :=
  {| whisper_model := None; kokoro_pipeline := None; _initialized := false |}.

(** The outcome of a method: what it returns or raises, the service object and
    the world afterwards. *)
Definition outcome (A : Type) : Type := (result A * SpeechService * world)%type.

Definition returned {A} (o : outcome A) : result A := o.1.1.
Definition service_after {A} (o : outcome A) : SpeechService := o.1.2.
Definition world_after {A} (o : outcome A) : world := o.2.

(** ** Lifecycle *)

Definition initialize (E : collaborators) (self : SpeechService) (w : world)
  : outcome unit :=
  if _initialized self then (Ok tt, self, w)
  else
    let w1 := record_call (LoadWhisper "turbo") w in
    match whisper_load_model E "turbo" with
    | Raise e => (Raise e, self, w1)
    | Ok m =>
      let self1 := {| whisper_model := Some m;
                      kokoro_pipeline := kokoro_pipeline self;
                      _initialized := _initialized self |} in
      let w2 := record_call (LoadKokoro "a") w1 in
      match KPipeline E "a" with
      | Raise e => (Raise e, self1, w2)
      | Ok p =>
        (Ok tt,
         {| whisper_model := Some m; kokoro_pipeline := Some p; _initialized := true |},
         w2)
      end
    end.

Definition get_health_status (self : SpeechService) : health_status :=
  {| whisper := bool_decide (whisper_model self <> None);
     kokoro := bool_decide (kokoro_pipeline self <> None);
     initialized := _initialized self |}.

Definition cleanup (E : collaborators) (self : SpeechService) (w : world)
  : outcome unit :=
  let self1 :=
    match whisper_model self with
    | Some _ => {| whisper_model := None;
                   kokoro_pipeline := kokoro_pipeline self;
                   _initialized := _initialized self |}
    | None => self
    end in
  let self2 :=
    match kokoro_pipeline self1 with
    | Some _ => {| whisper_model := whisper_model self1;
                   kokoro_pipeline := None;
                   _initialized := _initialized self1 |}
    | None => self1
    end in
  let w1 := if cuda_is_available E then record_call CudaEmptyCache w else w in
  (Ok tt,
   {| whisper_model := whisper_model self2;
      kokoro_pipeline := kokoro_pipeline self2;
      _initialized := false |},
   w1).

(** ** Transcription pipeline *)

(** The ASCII characters that [str.strip()] removes. *)
Definition is_whitespace (c : Ascii.ascii) : bool :=
  let n := Ascii.nat_of_ascii c in
  (n =? 32)%nat || ((9 <=? n)%nat && (n <=? 13)%nat)
  || ((28 <=? n)%nat && (n <=? 31)%nat).

(** *** Characters of a [str]

    The text is UTF-8: a byte below 192 stands alone, a byte from 192 on
    announces a character of two, three or four bytes, the others being
    continuation bytes (128 to 191). *)

Definition is_continuation (c : Ascii.ascii) : bool :=
  let n := Ascii.nat_of_ascii c in
  (128 <=? n)%nat && (n <? 192)%nat.

(** The number of bytes that a leading byte announces. *)
Definition width (c : Ascii.ascii) : nat :=
  let n := Ascii.nat_of_ascii c in
  if (n <? 192)%nat then 1
  else if (n <? 224)%nat then 2
  else if (n <? 240)%nat then 3
  else if (n <? 248)%nat then 4
  else 1.

(** The [k] continuation bytes at the head of a list of characters, and the
    characters after them. *)
Fixpoint take_continuations (k : nat) (chars : list string)
  : option (string * list string) :=
  match k with
  | O => Some (EmptyString, chars)
  | S k' =>
    match chars with
    | String c EmptyString :: rest =>
      if is_continuation c then
        match take_continuations k' rest with
        | Some (tail, rest') => Some (String c tail, rest')
        | None => None
        end
      else None
    | _ => None
    end
  end.

(** [list(s)]: the characters of [s], each with the bytes that encode it.  A
    leading byte that is not followed by the continuation bytes it announces
    stands alone (no [str] is encoded that way). *)
Fixpoint characters (s : string) : list string :=
  match s with
  | EmptyString => []
  | String c s' =>
    let rest := characters s' in
    match take_continuations (width c - 1) rest with
    | Some (tail, rest') => String c tail :: rest'
    | None => String c EmptyString :: rest
    end
  end.

(** [len(s)] *)
Definition py_len (s : string) : nat := length (characters s).

(** The encoding of a code point. *)
Definition utf8 (cp : N) : string :=
  let byte (n : N) := Ascii.ascii_of_N n in
  if (cp <? 128)%N then String (byte cp) EmptyString
  else if (cp <? 2048)%N then
    String (byte (192 + cp / 64)%N)
      (String (byte (128 + cp mod 64)%N) EmptyString)
  else if (cp <? 65536)%N then
    String (byte (224 + cp / 4096)%N)
      (String (byte (128 + (cp / 64) mod 64)%N)
         (String (byte (128 + cp mod 64)%N) EmptyString))
  else
    String (byte (240 + cp / 262144)%N)
      (String (byte (128 + (cp / 4096) mod 64)%N)
         (String (byte (128 + (cp / 64) mod 64)%N)
            (String (byte (128 + cp mod 64)%N) EmptyString))).

(** The code points that [str.isspace] accepts, which are those that
    [str.strip()] removes: the ASCII ones, U+0085, U+00A0, U+1680,
    U+2000 to U+200A, U+2028, U+2029, U+202F, U+205F and U+3000. *)
Definition whitespace : list N :=
  [9; 10; 11; 12; 13; 28; 29; 30; 31; 32; 133; 160; 5760;
   8192; 8193; 8194; 8195; 8196; 8197; 8198; 8199; 8200; 8201; 8202;
   8232; 8233; 8239; 8287; 12288]%N.

Definition isspace (char : string) : bool :=
  existsb (fun cp => String.eqb char (utf8 cp)) whitespace.

Fixpoint lstrip (chars : list string) : list string :=
  match chars with
  | [] => []
  | char :: rest => if isspace char then lstrip rest else chars
  end.

Definition join (chars : list string) : string :=
  fold_right String.append EmptyString chars.

(** [s.strip()] *)
Definition strip (s : string) : string :=
  join (rev (lstrip (rev (lstrip (characters s))))).

(** Python's [min(a, b)] and [max(a, b)] on floats: the first argument is
    kept unless the second is strictly smaller (resp. greater). *)
Definition py_min (a b : R) : R := if Rlt_dec b a then b else a.
Definition py_max (a b : R) : R := if Rlt_dec a b then b else a.

(** [sum(probs)]: left to right, starting from 0. *)
Definition py_sum (l : list R) : R := fold_left Rplus l 0%R.

Definition is_nonempty {A} (l : list A) : bool :=
  match l with [] => false | _ :: _ => true end.

Definition _calculate_confidence (result : whisper_result) : R :=
  match wr_segments result with           (* if "segments" in result *)
  | Some segments =>
    if is_nonempty segments then
      let probs := map (fun seg => default 0%R (avg_logprob seg)) segments in
      if is_nonempty probs then
        let avg := (py_sum probs / INR (length probs))%R in
        py_max 0 (py_min 1 (exp avg))
      else (8 / 10)%R
    else (8 / 10)%R
  | None => (8 / 10)%R
  end.

Definition _transcribe_sync (E : collaborators) (self : SpeechService)
    (audio_path : path) (lang : string) (w : world)
  : result whisper_result * world :=
  let options := if String.eqb lang "auto" then None else Some lang in
  match whisper_model self with
  | Some model =>
    (whisper_transcribe E model audio_path options,
     record_call (WhisperTranscribe model audio_path options) w)
  | None =>
    (Raise (OtherException "'NoneType' object has no attribute 'transcribe'"), w)
  end.

(** [os.unlink(p)] *)
Definition unlink (p : path) (w : world) : world :=
  {| files := files w ∖ {[p]}; calls := calls w |}.

(** The file that [NamedTemporaryFile(suffix=".wav", delete=False)] creates:
    a name that no existing file has. *)
Definition create_temp (w : world) : path * world :=
  let p := fresh (files w) in
  (p, {| files := {[p]} ∪ files w; calls := calls w |}).

Definition transcribe_audio (E : collaborators) (self : SpeechService)
    (audio_data : bytes) (lang : string) (w : world)
  : outcome transcription :=
  if negb (_initialized self) || bool_decide (whisper_model self = None)
  then (Raise (RuntimeError "Whisper model not initialized"), self, w)
  else
    (* try: *)
    let '(r, w') :=
      match temp_create_error E with
      | Some e => (Raise e, w)
      | None =>
        (* with tempfile.NamedTemporaryFile(suffix=".wav", delete=False) *)
        let '(temp_file_path, w1) := create_temp w in
        match temp_write_error E audio_data with
        | Some e => (Raise e, w1)       (* the file is closed and kept *)
        | None =>
          (* try: *)
          let '(res, w2) := _transcribe_sync E self temp_file_path lang w1 in
          let ret :=
            result <- res ;;
            Ok {| text := strip (wr_text result);
                  language := default "unknown" (wr_language result);
                  confidence := _calculate_confidence result;
                  duration := default 0%Q (wr_duration result) |} in
          (* finally: *)
          let w3 :=
            if bool_decide (temp_file_path ∈ files w2)     (* os.path.exists *)
            then unlink temp_file_path w2
            else w2 in
          (ret, w3)
        end
      end in
    (* except Exception as e: raise RuntimeError(...) *)
    (reraise_as_runtime "Transcription failed: " r, self, w').

(** ** Synthesis pipeline *)

(** [int(x)] on a float: truncation towards zero. *)
Definition py_int (x : Q) : Z := (Qnum x `quot` Zpos (Qden x))%Z.

(** [l[::step]] for a positive [step]: index 0, then every [step]-th index.
    [skip] counts the elements to drop before the next one that is kept. *)
Fixpoint stride {A} (skip step : nat) (l : list A) : list A :=
  match l with
  | [] => []
  | x :: l' =>
    match skip with
    | O => x :: stride (step - 1) step l'
    | S skip' => stride skip' step l'
    end
  end.

(** [audio[::step]] *)
Definition slice_step {A} (step : Z) (audio : list A) : result (list A) :=
  if (step =? 0)%Z then Raise (ValueError "slice step cannot be zero")
  else if (0 <? step)%Z then Ok (stride 0 (Z.to_nat step) audio)
  else Ok (stride 0 (Z.to_nat (- step)) (rev audio)).

(** [np.repeat(audio, repeats)] *)
Definition np_repeat {A} (audio : list A) (repeats : Z) : result (list A) :=
  if (repeats <? 0)%Z
  then Raise (ValueError "repeats may not contain negative values.")
  else Ok (flat_map (fun x => replicate (Z.to_nat repeats) x) audio).

(** [np.zeros(n, dtype=np.float32)] *)
Definition np_zeros (n : Z) : waveform := replicate (Z.to_nat n) 0%Q.

Definition _synthesize_sync (E : collaborators) (self : SpeechService)
    (txt voice : string) (w : world) : result waveform * world :=
  match kokoro_pipeline self with
  | Some pipeline =>
    let w1 := record_call (KokoroSynthesize pipeline txt voice) w in
    match kokoro_generate E pipeline txt voice with
    | Raise e => (Raise e, w1)
    | Ok generated =>
      let audio_segments := map (fun '(gs, ps, audio) => audio) generated in
      if is_nonempty audio_segments
      then (Ok (concat audio_segments), w1)
      else (Ok (np_zeros 24000), w1)           (* 1 second of silence *)
    end
  | None => (Raise (OtherException "'NoneType' object is not callable"), w)
  end.

Definition _adjust_speed (E : collaborators) (audio : waveform) (speed : Q)
  : result waveform :=
  if Qeq_bool speed 1 then Ok audio
  else
    match librosa_time_stretch E with
    | Some time_stretch => time_stretch audio speed
    | None =>                                   (* except ImportError *)
      if Qlt_le_dec 1 speed then
        let step := py_int speed in
        slice_step step audio
      else
        if Qeq_bool speed 0
        then Raise (ZeroDivisionError "float division by zero")
        else
          let repeats := py_int (1 / speed) in
          np_repeat audio repeats
    end.

Definition byte_of_Z (z : Z) : Byte.byte :=
  default Byte.x00 (Byte.of_N (Z.to_N (z `mod` 256))).

(** [n] bytes of [z], least significant first. *)
Fixpoint le_bytes (n : nat) (z : Z) : bytes :=
  match n with
  | O => []
  | S n' => byte_of_Z z :: le_bytes n' (z `div` 256)
  end.

(** [sf.write(buffer, audio, sample_rate, format='WAV')], then the contents
    of the buffer: a mono 16-bit PCM WAVE file, that is 44 bytes of header,
    which record the rate and the size of the data, then two bytes per
    sample. *)
Definition sf_write (quantize : Q -> Z) (audio : waveform) (sample_rate : Z)
  : bytes :=
  let data_size := (2 * Z.of_nat (length audio))%Z in
  let rate := sample_rate in
  (String.list_byte_of_string "RIFF" ++ le_bytes 4 (36 + data_size)
   ++ String.list_byte_of_string "WAVE"
   ++ String.list_byte_of_string "fmt " ++ le_bytes 4 16
   ++ le_bytes 2 1 ++ le_bytes 2 1
   ++ le_bytes 4 rate ++ le_bytes 4 (rate * 2)
   ++ le_bytes 2 2 ++ le_bytes 2 16
   ++ String.list_byte_of_string "data" ++ le_bytes 4 data_size
   ++ flat_map (fun x => le_bytes 2 (quantize x)) audio)%list.

Definition _audio_to_wav_bytes (E : collaborators) (audio : waveform)
    (sample_rate : Z) : bytes :=
  sf_write (sf_pcm_16 E) audio sample_rate.

Definition synthesize_speech (E : collaborators) (self : SpeechService)
    (txt voice : string) (speed pitch : Q) (w : world) : outcome bytes :=
  if negb (_initialized self) || bool_decide (kokoro_pipeline self = None)
  then (Raise (RuntimeError "Kokoro pipeline not initialized"), self, w)
  else
    (* try: *)
    let '(generated, w1) := _synthesize_sync E self txt voice w in
    let r :=
      audio_data <- generated ;;
      audio_data <- (if negb (Qeq_bool speed 1)
                     then _adjust_speed E audio_data speed
                     else Ok audio_data) ;;
      Ok (_audio_to_wav_bytes E audio_data 24000) in
    (* except Exception as e: raise RuntimeError(...) *)
    (reraise_as_runtime "Speech synthesis failed: " r, self, w1).

Definition get_available_voices : list string :=
  ["af_heart"; "af_sky"; "af_bella"; "af_sarah"; "am_adam";
   "am_michael"; "bf_emma"; "bf_isabella"; "bm_george"; "bm_lewis"].

(** ** A concrete deployment

    Closed collaborators on which the statements below are exercised. *)

(** A sample in [-1, 1] scaled to a signed 16-bit integer, out-of-range
    values clipped. *)
Definition pcm16 (x : Q) : Z :=
  let v := Qfloor (x * 32767 + (1 # 2)) in
  Z.max (-32768) (Z.min 32767 v).

(** The file written with that conversion. *)
Definition wav_pcm16 (audio : waveform) (sample_rate : Z) : bytes :=
  sf_write pcm16 audio sample_rate.

(** The engine hears one segment and speaks two chunks; librosa is not
    installed; [kokoro_ok] and [write_ok] switch the two failures studied
    below, [chunks] is what the TTS generator yields. *)
Definition deployment (kokoro_ok write_ok : bool)
    (chunks : list (string * string * waveform)) : collaborators :=
  {| whisper_load_model := fun _ => Ok (Handle 1);
     KPipeline := fun _ =>
       if kokoro_ok then Ok (Handle 2)
       else Raise (OtherException "voice pack not found");
     temp_create_error := None;
     temp_write_error := fun _ =>
       if write_ok then None
       else Some (OSError "[Errno 28] No space left on device");
     whisper_transcribe := fun _ _ _ =>
       Ok {| wr_text := " two coffees please ";
             wr_language := Some "en";
             wr_duration := Some (3 # 2);
             wr_segments := Some [ {| avg_logprob := Some (-1)%R |} ] |};
     kokoro_generate := fun _ _ _ => Ok chunks;
     librosa_time_stretch := None;
     sf_pcm_16 := pcm16;
     cuda_is_available := false |}.

Definition two_chunks : list (string * string * waveform) :=
  [("Hello", "h@lo", [0; 1 # 4; 1 # 2]%Q); ("world", "w3ld", [1 # 4; 0]%Q)].

Definition empty_world : world := {| files := ∅; calls := [] |}.

Definition ready : SpeechService :=
  {| whisper_model := Some (Handle 1);
     kokoro_pipeline := Some (Handle 2);
     _initialized := true |}.

(** ** Vocabulary of the specification *)

(** [mean(avg_logprob)] over the segments. *)
Definition mean (l : list R) : R := (fold_right Rplus 0 l / INR (length l))%R.

(** [clamp(x, lo, hi)] *)
Definition clamp (x lo hi : R) : R := Rmax lo (Rmin hi x).

(** A segment whose missing log-probability is written out as 0.0. *)
Definition with_zero_logprob (seg : segment) : segment :=
  {| avg_logprob := Some (default 0%R (avg_logprob seg)) |}.

(** [SynthesisRequest]: text of 1..1000 characters, speed and pitch in
    [0.5, 2.0]. *)
Definition valid_parameters (txt : string) (speed pitch : Q) : Prop :=
  (1 <= py_len txt <= 1000)%nat
  /\ (1 # 2 <= speed)%Q /\ (speed <= 2)%Q
  /\ (1 # 2 <= pitch)%Q /\ (pitch <= 2)%Q.

(** ** Vocabulary of the further properties *)

Definition first_char (s : string) : option Ascii.ascii :=
  match s with
  | EmptyString => None
  | String c _ => Some c
  end.

Fixpoint last_char (s : string) : option Ascii.ascii :=
  match s with
  | EmptyString => None
  | String c EmptyString => Some c
  | String _ s' => last_char s'
  end.

(** Neither the first nor the last character is whitespace. *)
Definition trimmed (s : string) : Prop :=
  (forall c, first_char s = Some c -> is_whitespace c = false)
  /\ (forall c, last_char s = Some c -> is_whitespace c = false).

(** Every byte is a continuation byte. *)
Fixpoint all_continuation (s : string) : bool :=
  match s with
  | EmptyString => true
  | String c s' => is_continuation c && all_continuation s'
  end.

(** The shape of a character: one byte, or a leading byte that announces
    more than one and is followed by continuation bytes. *)
Definition well_formed (char : string) : Prop :=
  exists c tail,
    char = String c tail
    /\ all_continuation tail = true
    /\ (tail = EmptyString \/ width c <> 1%nat).

(** The [options] that [_transcribe_sync] passes to the engine. *)
Definition language_option (lang : string) : option string :=
  if String.eqb lang "auto" then None else Some lang.

(** The states of the service object that calls of its methods can produce,
    starting from [SpeechService(settings)]; the collaborators may answer
    differently at every call. *)
Inductive reachable : SpeechService -> Prop :=
  | reachable_new : reachable __init__
  | reachable_initialize E self w :
      reachable self -> reachable (service_after (initialize E self w))
  | reachable_cleanup E self w :
      reachable self -> reachable (service_after (cleanup E self w))
  | reachable_transcribe E self audio lang w :
      reachable self ->
      reachable (service_after (transcribe_audio E self audio lang w))
  | reachable_synthesize E self txt voice speed pitch w :
      reachable self ->
      reachable (service_after (synthesize_speech E self txt voice speed pitch w)).

(** ** The HTTP layer: [python_service/main.py]

    The request and response models of [models/api_models.py] are records, one
    module per class.  A handler either returns a body or raises; FastAPI
    answers an [HTTPException] with its status code and detail. *)

Module TranscriptionResponse.
Record t : Type := {
  text : string;
  language : string;
  confidence : R;       (* Field(ge=0.0, le=1.0) *)
  duration : Q          (* Field(ge=0.0) *)
}.
End TranscriptionResponse.

Module SynthesisRequest.
Record t : Type := {
  text : string;        (* Field(min_length=1, max_length=1000) *)
  voice : string;
  speed : Q;            (* Field(ge=0.5, le=2.0) *)
  pitch : Q             (* Field(ge=0.5, le=2.0) *)
}.
End SynthesisRequest.

Module HealthResponse.
Record t : Type := {
  status : string;
  services : health_status;
  version : string
}.
End HealthResponse.

Module UploadFile.
Record t : Type := {
  content_type : option string;
  data : bytes          (* what [await audio.read()] returns *)
}.
End UploadFile.

Module Response.
Record t : Type := {
  content : bytes;
  media_type : string;
  headers : list (string * string)
}.
End Response.

Module Main.

(** What the body of a handler can raise. *)
Inductive handler_exn : Type :=
  | HTTPException (status_code : Z) (detail : string)
  | ServiceException (e : exn)
  | ValidationError (msg : string).

Inductive attempt (A : Type) : Type :=
  | Done (a : A)
  | Raised (e : handler_exn).
Arguments Done {A} a.
Arguments Raised {A} e.

(** What the client receives; [Unhandled] when an exception that the
    handler does not catch leaves it, so that no response is built. *)
Inductive reply (A : Type) : Type :=
  | Respond (body : A)
  | Error (status_code : Z) (detail : string)
  | Unhandled (e : exn).
Arguments Respond {A} body.
Arguments Error {A} status_code detail.
Arguments Unhandled {A} e.

(** The library texts: [str(HTTPException(...))] and the message of a
    pydantic validation error, which the handlers interpolate into a detail,
    and the detail of the 422 that FastAPI answers to a request that fails
    validation. *)
Record framework : Type := {
  http_exception_str : Z -> string -> string;
  validation_error_str : R -> Q -> string;
  request_validation_detail : string
}.

Definition handler_str (F : framework) (e : handler_exn) : string :=
  match e with
  | HTTPException status_code detail => http_exception_str F status_code detail
  | ServiceException e => str e
  | ValidationError msg => msg
  end.

(** [try: body  except Exception as e: raise HTTPException(500, prefix + str(e))] *)
Definition internal_error {A} (F : framework) (prefix : string)
    (a : attempt A) : reply A :=
  match a with
  | Done r => Respond r
  | Raised (ServiceException e) =>
    if is_exception e then Error 500 (prefix ++ str e)
    else Unhandled e                  (* not caught *)
  | Raised e => Error 500 (prefix ++ handler_str F e)
  end.

(** [TranscriptionResponse(text=..., language=..., confidence=..., duration=...)]:
    pydantic checks the bounds of the two numeric fields. *)
Definition TranscriptionResponse_init (F : framework)
    (txt lang : string) (conf : R) (dur : Q)
  : attempt TranscriptionResponse.t :=
  if Rle_dec 0 conf then
    if Rle_dec conf 1 then
      if Qle_bool 0 dur then
        Done {| TranscriptionResponse.text := txt;
                TranscriptionResponse.language := lang;
                TranscriptionResponse.confidence := conf;
                TranscriptionResponse.duration := dur |}
      else Raised (ValidationError (validation_error_str F conf dur))
    else Raised (ValidationError (validation_error_str F conf dur))
  else Raised (ValidationError (validation_error_str F conf dur)).

(** [lifespan], up to [yield]: the global is assigned before [initialize]
    runs, and an exception of [initialize] is re-raised. *)
Definition lifespan_startup (E : collaborators) (w : world)
  : result unit * option SpeechService * world :=
  let '(r, svc, w') := initialize E __init__ w in
  (r, Some svc, w').

(** [lifespan], after [yield]. *)
Definition lifespan_shutdown (E : collaborators)
    (speech_service : option SpeechService) (w : world)
  : result unit * option SpeechService * world :=
  match speech_service with
  | Some svc =>
    let '(r, svc', w') := cleanup E svc w in
    (r, Some svc', w')
  | None => (Ok tt, None, w)
  end.

(** [GET /api/v1/health] *)
Definition health_check (speech_service : option SpeechService)
  : reply HealthResponse.t :=
  let body : attempt HealthResponse.t :=
    match speech_service with
    | None => Raised (HTTPException 503 "Speech service not initialized")
    | Some svc =>
      let status := get_health_status svc in
      Done {| HealthResponse.status :=
                if whisper status && kokoro status then "healthy" else "degraded";
              HealthResponse.services := status;
              HealthResponse.version := "1.0.0" |}
    end in
  match body with
  | Done r => Respond r
  | Raised _ => Error 500 "Health check failed"
  end.

(** [not audio.content_type or not audio.content_type.startswith('audio/')] *)
Definition invalid_content_type (audio : UploadFile.t) : bool :=
  match UploadFile.content_type audio with
  | None => true
  | Some ct => String.eqb ct "" || negb (String.prefix "audio/" ct)
  end.

(** [POST /api/v1/speech/transcribe] *)
Definition transcribe_audio (F : framework) (E : collaborators)
    (speech_service : option SpeechService)
    (audio : UploadFile.t) (lang : string) (w : world)
  : reply TranscriptionResponse.t * option SpeechService * world :=
  match speech_service with
  | None => (Error 503 "Speech service not available", None, w)
  | Some svc =>
    (* try: *)
    let '(body, svc', w') :=
      if invalid_content_type audio
      then (Raised (HTTPException 400 "Invalid audio file format"), svc, w)
      else
        let audio_data := UploadFile.data audio in
        let '(r, svc', w') := transcribe_audio E svc audio_data lang w in
        match r with
        | Raise e => (Raised (ServiceException e), svc', w')
        | Ok result =>
          (TranscriptionResponse_init F (text result) (language result)
             (confidence result) (duration result), svc', w')
        end in
    (* except Exception as e: *)
    (internal_error F "Transcription failed: " body, Some svc', w')
  end.

(** [POST /api/v1/speech/synthesize] *)
Definition synthesize_speech (F : framework) (E : collaborators)
    (speech_service : option SpeechService)
    (request : SynthesisRequest.t) (w : world)
  : reply Response.t * option SpeechService * world :=
  match speech_service with
  | None => (Error 503 "Speech service not available", None, w)
  | Some svc =>
    let txt := SynthesisRequest.text request in
    (* try: *)
    let '(body, svc', w') :=
      if String.eqb txt "" || (py_len (strip txt) =? 0)%nat
      then (Raised (HTTPException 400 "Text cannot be empty"), svc, w)
      else if (1000 <? py_len txt)%nat
      then (Raised (HTTPException 400
                      "Text too long. Maximum length: 1000 characters"), svc, w)
      else
        let '(r, svc', w') :=
          synthesize_speech E svc txt (SynthesisRequest.voice request)
            (SynthesisRequest.speed request) (SynthesisRequest.pitch request) w in
        match r with
        | Raise e => (Raised (ServiceException e), svc', w')
        | Ok audio_data =>
          (Done {| Response.content := audio_data;
                   Response.media_type := "audio/wav";
                   Response.headers :=
                     [("Content-Disposition",
                       "attachment; filename=synthesized_speech.wav")] |},
           svc', w')
        end in
    (* except Exception as e: *)
    (internal_error F "Speech synthesis failed: " body, Some svc', w')
  end.

(** [GET /api/v1/speech/voices] *)
Definition get_available_voices (speech_service : option SpeechService)
  : reply (list string) :=
  match speech_service with
  | None => Error 503 "Speech service not available"
  | Some _ => Respond get_available_voices
  end.

Definition status_of {A} (r : reply A) : option Z :=
  match r with
  | Respond _ => Some 200%Z
  | Error status_code _ => Some status_code
  | Unhandled _ => None
  end.

(** *** The requests as they arrive

    FastAPI builds the arguments of a handler from the request and answers
    422 without calling the handler when it cannot: the JSON body must make
    a [SynthesisRequest], the form must carry the file. *)

(** The JSON body of a synthesis request; a field may be missing. *)
Record synthesis_body : Type := {
  body_text : option string;
  body_voice : option string;
  body_speed : option Q;
  body_pitch : option Q
}.

(** The [SynthesisRequest] built from the body: the defaults and the bounds
    of the fields of the model. *)
Definition SynthesisRequest_init (body : synthesis_body)
  : option SynthesisRequest.t :=
  match body_text body with
  | None => None
  | Some txt =>
    let voice := default "af_heart" (body_voice body) in
    let speed := default 1%Q (body_speed body) in
    let pitch := default 1%Q (body_pitch body) in
    if (1 <=? py_len txt)%nat && (py_len txt <=? 1000)%nat
       && Qle_bool (1 # 2) speed && Qle_bool speed 2
       && Qle_bool (1 # 2) pitch && Qle_bool pitch 2
    then Some {| SynthesisRequest.text := txt;
                 SynthesisRequest.voice := voice;
                 SynthesisRequest.speed := speed;
                 SynthesisRequest.pitch := pitch |}
    else None
  end.


(** The route [POST /api/v1/speech/synthesize]. *)
Definition post_synthesize (F : framework) (E : collaborators)
    (speech_service : option SpeechService)
    (body : synthesis_body) (w : world)
  : reply Response.t * option SpeechService * world :=
  match SynthesisRequest_init body with
  | None => (Error 422 (request_validation_detail F), speech_service, w)
  | Some request => synthesize_speech F E speech_service request w
  end.


End Main.

(** The texts of the deployed libraries: Starlette renders an
    [HTTPException] as its status code, a colon and its detail; the last
    field stands for the list of errors in the body of a 422. *)
Definition rendering : Main.framework :=
  {| Main.http_exception_str := fun status_code detail =>
       pretty status_code ++ ": " ++ detail;
     Main.validation_error_str := fun _ _ =>
       "1 validation error for TranscriptionResponse";
     Main.request_validation_detail := "[validation errors]" |}.

(** The pydantic constraints of [SynthesisRequest]. *)
Definition valid_request (request : SynthesisRequest.t) : Prop :=
  valid_parameters (SynthesisRequest.text request)
    (SynthesisRequest.speed request) (SynthesisRequest.pitch request).

(** ** The launcher: [python_service/start_service.py]

    Printing is left out; what is kept is what the script does to its process
    (working directory, environment, exit status) and the two programs it
    runs. *)

Module StartService.

(** How [import uvicorn; uvicorn.run(...)] ends: it returns, or raises (an
    [ImportError], [KeyboardInterrupt], the [SystemExit] of a server that
    could not start, ...). *)
Inductive uvicorn_outcome : Type :=
  | Served
  | Raised (e : exn).

Record system : Type := {
  script_dir : string;           (* Path(__file__).parent *)
  imports_ok : bool;             (* the six imports of check_dependencies *)
  requirements_exists : bool;    (* requirements_file.exists() *)
  pip_install_ok : bool;         (* check_call does not raise CalledProcessError *)
  uvicorn_run : string -> Z -> bool -> uvicorn_outcome
}.

Inductive effect : Type :=
  | PipInstall (requirements_file : string)
  | UvicornRun (host : string) (port : Z) (reload : bool).

Record process : Type := {
  cwd : string;
  environ : gmap string string;
  effects : list effect          (* oldest first *)
}.

Record Args : Type := {
  host : string;
  port : Z;
  reload : bool;
  install : bool;
  check : bool
}.

(** [argparse] defaults. *)
Definition default_args : Args :=
  {| host := "0.0.0.0"; port := 8000; reload := false;
     install := false; check := false |}.

Definition check_dependencies (S : system) : bool := imports_ok S.

Definition install_dependencies (S : system) (p : process) : bool * process :=
  let requirements_file := script_dir S ++ "/requirements.txt" in
  if negb (requirements_exists S) then (false, p)
  else
    let p1 := {| cwd := cwd p; environ := environ p;
                 effects := effects p ++ [PipInstall requirements_file] |} in
    if pip_install_ok S then (true, p1) else (false, p1).

(** [os.environ.setdefault(key, value)] *)
Definition setdefault (key value : string) (env : gmap string string)
  : gmap string string :=
  match env !! key with
  | Some _ => env
  | None => <[key := value]> env
  end.

Definition start_service (S : system) (host : string) (port : Z) (reload : bool)
    (p : process) : result bool * process :=
  let env1 := setdefault "HOST" host (environ p) in
  let env2 := setdefault "PORT" (pretty port) env1 in
  let p1 := {| cwd := cwd p; environ := env2;
               effects := effects p ++ [UvicornRun host port reload] |} in
  match uvicorn_run S host port reload with
  | Served => (Ok true, p1)
  | Raised KeyboardInterrupt => (Ok true, p1)    (* except KeyboardInterrupt *)
  | Raised e =>
    if is_exception e then (Ok false, p1)        (* except Exception *)
    else (Raise e, p1)                           (* not caught *)
  end.

(** The exit status of the interpreter when [e] leaves the script. *)
Definition exit_status (e : exn) : Z :=
  match e with
  | SystemExit code => code
  | _ => 1
  end.

(** [main()], on the parsed arguments: the exit status and the process
    afterwards. *)
Definition main (S : system) (args : Args) (p : process) : Z * process :=
  let p0 := {| cwd := script_dir S; environ := environ p; effects := effects p |} in
  if install args then
    let '(ok, p1) := install_dependencies S p0 in
    if negb ok then (1%Z, p1) else (0%Z, p1)
  else if check args then
    if negb (check_dependencies S) then (1%Z, p0) else (0%Z, p0)
  else if negb (check_dependencies S) then (1%Z, p0)
  else
    let '(r, p1) := start_service S (host args) (port args) (reload args) p0 in
    match r with
    | Ok _ => (0%Z, p1)
    | Raise e => (exit_status e, p1)
    end.

End StartService.

Lemma Ok_inj {A} (a b : A) : Ok a = Ok b -> a = b.
Proof. by intros [= ->]. Qed.

(** ** Lifecycle properties *)

Section Lifecycle.
Variable E : collaborators.

Lemma initialize_when_initialized self w :
  _initialized self = true -> initialize E self w = (Ok tt, self, w).
Proof. intros Hi. unfold initialize. by rewrite Hi. Qed.

(** A call that returns normally leaves the flag set. *)
Lemma initialize_ok_sets_flag self w :
  returned (initialize E self w) = Ok tt ->
  _initialized (service_after (initialize E self w)) = true.
Proof.
  unfold initialize.
  destruct (_initialized self) eqn:Hi; [done|].
  destruct (whisper_load_model E "turbo"); [|done].
  destruct (KPipeline E "a"); done.
Qed.

(** A call that raises leaves the flag as it was. *)
Lemma initialize_raise_keeps_flag self w e :
  returned (initialize E self w) = Raise e ->
  _initialized (service_after (initialize E self w)) = _initialized self.
Proof.
  unfold initialize.
  destruct (_initialized self) eqn:Hi; [done|].
  destruct (whisper_load_model E "turbo"); [|done].
  destruct (KPipeline E "a"); done.
Qed.

Lemma transcribe_audio_guard self audio lang w :
  _initialized self = false \/ whisper_model self = None ->
  transcribe_audio E self audio lang w
  = (Raise (RuntimeError "Whisper model not initialized"), self, w).
Proof.
  intros [H|H]; unfold transcribe_audio; rewrite H; [done|].
  by rewrite orb_true_r.
Qed.

Lemma synthesize_speech_guard self txt voice speed pitch w :
  _initialized self = false \/ kokoro_pipeline self = None ->
  synthesize_speech E self txt voice speed pitch w
  = (Raise (RuntimeError "Kokoro pipeline not initialized"), self, w).
Proof.
  intros [H|H]; unfold synthesize_speech; rewrite H; [done|].
  by rewrite orb_true_r.
Qed.

Lemma cleanup_outcome self w :
  cleanup E self w
  = (Ok tt,
     {| whisper_model := None; kokoro_pipeline := None; _initialized := false |},
     if cuda_is_available E then record_call CudaEmptyCache w else w).
Proof.
  unfold cleanup.
  destruct self as [[m|] [p|] i]; reflexivity.
Qed.
End Lifecycle.

(** C7: [initialize] is idempotent.  On an initialized service it returns
    at once, with the service and the world (hence the log of loader calls)
    untouched; and whenever a first call returns without error, a second call
    in a row returns without error, loads nothing, and leaves the same health
    status as the first. *)
Theorem initialize_idempotent (E : collaborators) (self : SpeechService) (w : world) :
  (_initialized self = true -> initialize E self w = (Ok tt, self, w))
  /\ (returned (initialize E self w) = Ok tt ->
      let once := initialize E self w in
      let twice := initialize E (service_after once) (world_after once) in
      twice = (Ok tt, service_after once, world_after once)
      /\ get_health_status (service_after twice)
         = get_health_status (service_after once)).
Proof.
  split; [apply initialize_when_initialized|].
  intros Hok once twice.
  assert (Htwice : twice = (Ok tt, service_after once, world_after once)).
  { apply initialize_when_initialized. by apply initialize_ok_sets_flag. }
  split; [exact Htwice|]. by rewrite Htwice.
Qed.

Lemma initialize_idempotent_witness :
  let E := deployment true true two_chunks in
  let once := initialize E __init__ empty_world in
  returned once = Ok tt
  /\ initialize E (service_after once) (world_after once)
     = (Ok tt, service_after once, world_after once).
Proof.
  intros E once.
  assert (Hok : returned (initialize E __init__ empty_world) = Ok tt)
    by reflexivity.
  split; [exact Hok|].
  exact (proj1 (proj2 (initialize_idempotent E __init__ empty_world) Hok)).
Defined.

(** C4: a partial initialization failure (the STT model loads, the TTS
    pipeline load throws) makes [initialize] raise and leaves the flag false;
    from the state it leaves, every [transcribe_audio] and every
    [synthesize_speech] call raises at the guard, with the service and the
    world unchanged: no staging file, no engine call. *)
Theorem partial_initialization_unusable
    (E : collaborators) (self : SpeechService) (w : world) (m : handle) (e : exn) :
  _initialized self = false ->
  whisper_load_model E "turbo" = Ok m ->
  KPipeline E "a" = Raise e ->
  let failed := initialize E self w in
  returned failed = Raise e
  /\ whisper_model (service_after failed) = Some m
  /\ _initialized (service_after failed) = false
  /\ initialized (get_health_status (service_after failed)) = false
  /\ (forall audio lang w',
        transcribe_audio E (service_after failed) audio lang w'
        = (Raise (RuntimeError "Whisper model not initialized"),
           service_after failed, w'))
  /\ (forall txt voice speed pitch w',
        synthesize_speech E (service_after failed) txt voice speed pitch w'
        = (Raise (RuntimeError "Kokoro pipeline not initialized"),
           service_after failed, w')).
Proof.
  intros Hflag Hw Hk failed.
  assert (Hfailed : failed
    = (Raise e,
       {| whisper_model := Some m; kokoro_pipeline := kokoro_pipeline self;
          _initialized := false |},
       record_call (LoadKokoro "a") (record_call (LoadWhisper "turbo") w))).
  { unfold failed, initialize. by rewrite Hflag, Hw, Hk. }
  rewrite Hfailed. split; [reflexivity|]. do 3 (split; [reflexivity|]).
  split; intros.
  - apply transcribe_audio_guard. by left.
  - apply synthesize_speech_guard. by left.
Qed.

Lemma partial_initialization_unusable_witness :
  let E := deployment false true two_chunks in
  let failed := initialize E __init__ empty_world in
  returned failed = Raise (OtherException "voice pack not found")
  /\ get_health_status (service_after failed)
     = {| whisper := true; kokoro := false; initialized := false |}
  /\ transcribe_audio E (service_after failed) [] "auto" (world_after failed)
     = (Raise (RuntimeError "Whisper model not initialized"),
        service_after failed, world_after failed).
Proof.
  intros E failed.
  destruct (partial_initialization_unusable E __init__ empty_world (Handle 1)
              (OtherException "voice pack not found")
              eq_refl eq_refl eq_refl) as (Hr & _ & _ & _ & Ht & _).
  split; [exact Hr|]. split; [reflexivity|]. apply Ht.
Defined.

(** C8: [cleanup] is safe in every state of the service, among them the
    state before [initialize] and the state a partial initialization failure
    leaves: it returns without raising, both handles are absent afterwards,
    and the health status reports [initialized = false]. *)
Theorem cleanup_safe (E : collaborators) (self : SpeechService) (w : world) :
  let o := cleanup E self w in
  returned o = Ok tt
  /\ whisper_model (service_after o) = None
  /\ kokoro_pipeline (service_after o) = None
  /\ get_health_status (service_after o)
     = {| whisper := false; kokoro := false; initialized := false |}.
Proof. intros o. unfold o. rewrite cleanup_outcome. by repeat split. Qed.

(** C9: before a successful initialization (flag false, or the handle of the
    requested engine absent) [transcribe_audio] and [synthesize_speech] raise
    [RuntimeError] at once; the service object and the world are returned
    unchanged: no staging file was created and no engine call was made. *)
Theorem uninitialized_calls_rejected
    (E : collaborators) (self : SpeechService) (w : world) :
  (_initialized self = false \/ whisper_model self = None ->
   forall audio lang,
     transcribe_audio E self audio lang w
     = (Raise (RuntimeError "Whisper model not initialized"), self, w))
  /\ (_initialized self = false \/ kokoro_pipeline self = None ->
      forall txt voice speed pitch,
        synthesize_speech E self txt voice speed pitch w
        = (Raise (RuntimeError "Kokoro pipeline not initialized"), self, w)).
Proof.
  split; intros H; intros.
  - by apply transcribe_audio_guard.
  - by apply synthesize_speech_guard.
Qed.

Lemma uninitialized_calls_rejected_witness :
  let E := deployment true true two_chunks in
  transcribe_audio E __init__ [] "auto" empty_world
  = (Raise (RuntimeError "Whisper model not initialized"), __init__, empty_world)
  /\ synthesize_speech E __init__ "Hello world" "af_heart" 1 1 empty_world
     = (Raise (RuntimeError "Kokoro pipeline not initialized"), __init__, empty_world).
Proof.
  intros E.
  destruct (uninitialized_calls_rejected E __init__ empty_world) as [Ht Hs].
  split.
  - apply Ht. left. reflexivity.
  - apply Hs. right. reflexivity.
Defined.

(** ** The staging file of [transcribe_audio] *)

Section Staging.
Variable E : collaborators.

Lemma create_temp_is_new w : (create_temp w).1 ∉ files w.
Proof. apply is_fresh. Qed.

(** Once the audio bytes have been written, the [finally] block runs on
    every path (result returned, engine raised) and the set of staging
    files is what it was before the call. *)
Lemma transcribe_audio_staged_file_removed self audio lang w :
  temp_write_error E audio = None ->
  files (world_after (transcribe_audio E self audio lang w)) = files w.
Proof.
  intros Hwrite. unfold transcribe_audio.
  destruct (negb (_initialized self) || bool_decide (whisper_model self = None));
    [done|].
  destruct (temp_create_error E); [done|].
  unfold create_temp. rewrite Hwrite.
  pose proof (is_fresh (files w)) as Hnew.
  unfold _transcribe_sync, world_after, unlink.
  assert (Hin : fresh (files w) ∈ ({[fresh (files w)]} ∪ files w : gset path)).
  { apply elem_of_union_l. by apply elem_of_singleton. }
  assert (Hback : ({[fresh (files w)]} ∪ files w) ∖ {[fresh (files w)]} = files w).
  { apply set_eq. intros x.
    rewrite elem_of_difference, elem_of_union, elem_of_singleton.
    split; [tauto|]. intros Hx. split; [tauto|]. by intros ->. }
  destruct (whisper_model self); simpl;
    by rewrite (bool_decide_eq_true_2 _ Hin).
Qed.

(** When creating the file itself fails, there is nothing to remove. *)
Lemma transcribe_audio_create_failure self audio lang w e :
  temp_create_error E = Some e ->
  files (world_after (transcribe_audio E self audio lang w)) = files w.
Proof.
  intros Hcreate. unfold transcribe_audio.
  destruct (negb (_initialized self) || bool_decide (whisper_model self = None));
    [done|].
  by rewrite Hcreate.
Qed.

(** When the write inside the [with] block raises, control leaves through
    the outer [except]: the inner [try ... finally] is never entered and
    the file, created with [delete=False], stays. *)
Lemma transcribe_audio_write_failure self audio lang w e :
  _initialized self = true ->
  whisper_model self <> None ->
  temp_create_error E = None ->
  temp_write_error E audio = Some e ->
  transcribe_audio E self audio lang w
  = (reraise_as_runtime "Transcription failed: " (Raise e), self,
     {| files := {[fresh (files w)]} ∪ files w; calls := calls w |}).
Proof.
  intros Hi Hm Hcreate Hwrite. unfold transcribe_audio.
  rewrite Hi, (bool_decide_eq_false_2 _ Hm), Hcreate.
  cbn [negb orb create_temp]. by rewrite Hwrite.
Qed.
End Staging.

(** C1 (the code departs from it): on a full disk the write of the audio
    bytes raises; [transcribe_audio] reports the failure and returns with the
    staging file still on disk, and the engine was never called. *)
Theorem transcribe_audio_write_failure_leaves_file :
  let E := deployment true false two_chunks in
  let o := transcribe_audio E ready (String.list_byte_of_string "RIFF") "auto" empty_world in
  returned o
  = Raise (RuntimeError "Transcription failed: [Errno 28] No space left on device")
  /\ files empty_world = ∅
  /\ files (world_after o) = {[ "0" ]}
  /\ calls (world_after o) = [].
Proof. vm_compute. repeat split. Qed.

(** ** Confidence derivation *)

Lemma py_clamp_is_clamp (x : R) : py_max 0 (py_min 1 x) = clamp x 0 1.
Proof.
  unfold py_max, py_min, clamp, Rmax, Rmin.
  repeat (destruct (Rlt_dec _ _)); repeat (destruct (Rle_dec _ _)); lra.
Qed.

Lemma py_clamp_range (x : R) : (0 <= py_max 0 (py_min 1 x) <= 1)%R.
Proof.
  unfold py_max, py_min.
  repeat (destruct (Rlt_dec _ _)); lra.
Qed.

Lemma py_sum_from (l : list R) (a : R) :
  fold_left Rplus l a = (a + fold_right Rplus 0 l)%R.
Proof.
  revert a. induction l as [|x l IH]; intros a; simpl.
  - lra.
  - rewrite IH. lra.
Qed.

Lemma py_sum_mean (l : list R) : (py_sum l / INR (length l))%R = mean l.
Proof. unfold py_sum, mean. rewrite py_sum_from. f_equal. lra. Qed.

Lemma logprobs_present (segs : list segment) (lps : list R) :
  map avg_logprob segs = map Some lps ->
  map (fun seg => default 0%R (avg_logprob seg)) segs = lps.
Proof.
  revert lps. induction segs as [|s segs IH]; intros [|x lps] Heq;
    simpl in *; try discriminate; [done|].
  injection Heq as Hs Hrest. rewrite Hs. simpl. f_equal. by apply IH.
Qed.

Lemma logprobs_missing (segs : list segment) :
  Forall (fun seg => avg_logprob seg = None) segs ->
  map (fun seg => default 0%R (avg_logprob seg)) segs
  = replicate (length segs) 0%R.
Proof.
  induction 1 as [|s segs Hs _ IH]; simpl; [done|].
  rewrite Hs, IH. done.
Qed.

Lemma py_sum_zeros (n : nat) : py_sum (replicate n 0%R) = 0%R.
Proof.
  unfold py_sum. rewrite py_sum_from.
  induction n as [|n IH]; simpl; lra.
Qed.

Lemma confidence_of_segments (result : whisper_result) (s : segment) (segs : list segment) :
  wr_segments result = Some (s :: segs) ->
  _calculate_confidence result
  = py_max 0 (py_min 1 (exp (mean
      (map (fun seg => default 0%R (avg_logprob seg)) (s :: segs))))).
Proof.
  intros Hsegs. unfold _calculate_confidence. rewrite Hsegs.
  cbn [is_nonempty map]. by rewrite <- py_sum_mean.
Qed.

(** C2: with a non-empty list of segments that all carry [avg_logprob], the
    confidence is [clamp(exp(mean(avg_logprob)), 0, 1)]; with no segments
    (key absent, or empty list) it is exactly 0.8; and it always lies in
    [0, 1]. *)
Theorem calculate_confidence_spec (result : whisper_result) :
  (forall segs lps,
     wr_segments result = Some segs -> segs <> [] ->
     map avg_logprob segs = map Some lps ->
     _calculate_confidence result = clamp (exp (mean lps)) 0 1)
  /\ (wr_segments result = None \/ wr_segments result = Some [] ->
      _calculate_confidence result = (8 / 10)%R)
  /\ (0 <= _calculate_confidence result <= 1)%R.
Proof.
  split; [|split].
  - intros [|s segs] lps Hsegs Hne Hlps; [done|].
    rewrite (confidence_of_segments _ _ _ Hsegs), (logprobs_present _ _ Hlps).
    apply py_clamp_is_clamp.
  - intros [H|H]; unfold _calculate_confidence; by rewrite H.
  - destruct (wr_segments result) as [[|s segs]|] eqn:Hsegs.
    + unfold _calculate_confidence. rewrite Hsegs. simpl. lra.
    + rewrite (confidence_of_segments _ _ _ Hsegs). apply py_clamp_range.
    + unfold _calculate_confidence. rewrite Hsegs. lra.
Qed.

Lemma calculate_confidence_spec_witness :
  let result := {| wr_text := "ok"; wr_language := None; wr_duration := None;
                   wr_segments := Some [ {| avg_logprob := Some (-1)%R |};
                                         {| avg_logprob := Some (-3)%R |} ] |} in
  _calculate_confidence result = clamp (exp (mean [(-1)%R; (-3)%R])) 0 1.
Proof.
  intros result.
  apply (proj1 (calculate_confidence_spec result)
           [ {| avg_logprob := Some (-1)%R |}; {| avg_logprob := Some (-3)%R |} ]
           [(-1)%R; (-3)%R]).
  - reflexivity.
  - discriminate.
  - reflexivity.
Defined.

(** C10: a segment without [avg_logprob] counts as log-probability 0.0
    (writing the 0.0 out leaves the confidence unchanged), so a non-empty
    list of segments none of which carries [avg_logprob] has confidence 1.0,
    not the 0.8 of the no-segments case. *)
Theorem missing_logprob_counts_as_zero (result : whisper_result) (segs : list segment) :
  wr_segments result = Some segs ->
  (forall result',
     wr_segments result' = Some (map with_zero_logprob segs) ->
     _calculate_confidence result = _calculate_confidence result')
  /\ (segs <> [] ->
      Forall (fun seg => avg_logprob seg = None) segs ->
      _calculate_confidence result = 1%R
      /\ _calculate_confidence result <> (8 / 10)%R).
Proof.
  intros Hsegs. split.
  - intros result' Hsegs'.
    destruct segs as [|s segs].
    + unfold _calculate_confidence. by rewrite Hsegs, Hsegs'.
    + rewrite (confidence_of_segments _ _ _ Hsegs).
      simpl in Hsegs'. rewrite (confidence_of_segments _ _ _ Hsegs').
      do 4 f_equal. change (with_zero_logprob s :: map with_zero_logprob segs)
        with (map with_zero_logprob (s :: segs)).
      by rewrite map_map.
  - intros Hne Hnone.
    destruct segs as [|s segs]; [done|].
    assert (Hone : _calculate_confidence result = 1%R).
    { rewrite (confidence_of_segments _ _ _ Hsegs), (logprobs_missing _ Hnone).
      rewrite <- py_sum_mean, py_sum_zeros.
      replace (0 / INR (length (replicate (length (s :: segs)) 0%R)))%R with 0%R
        by (unfold Rdiv; lra).
      rewrite exp_0. unfold py_max, py_min.
      repeat (destruct (Rlt_dec _ _)); lra. }
    split; [exact Hone|]. rewrite Hone. lra.
Qed.

Lemma missing_logprob_counts_as_zero_witness :
  _calculate_confidence
    {| wr_text := ""; wr_language := None; wr_duration := None;
       wr_segments := Some [ {| avg_logprob := None |}; {| avg_logprob := None |} ] |}
  = 1%R.
Proof.
  set (segs := [ {| avg_logprob := None |}; {| avg_logprob := None |} ]).
  set (result := {| wr_text := ""; wr_language := None; wr_duration := None;
                    wr_segments := Some segs |}).
  refine (proj1 (proj2 (missing_logprob_counts_as_zero result segs eq_refl) _ _)).
  - discriminate.
  - repeat constructor.
Defined.

(** ** Speed adjustment *)

(** Slicing with a positive step keeps the samples at indices
    [skip], [skip + step], [skip + 2 * step], ... *)
Lemma stride_lookup {A} (l : list A) (skip step i : nat) :
  (1 <= step)%nat ->
  stride skip step l !! i = l !! (skip + i * step)%nat.
Proof.
  intros Hstep. revert skip i.
  induction l as [|x l IH]; intros skip i; [done|].
  destruct skip as [|skip]; simpl.
  - destruct i as [|i]; [done|]. simpl. rewrite IH.
    replace (step + i * step)%nat with (S (step - 1 + i * step)) by lia.
    done.
  - by rewrite IH.
Qed.

(** Repeating every sample [k] times puts input sample [i / k] at output
    index [i]. *)
Lemma repeat_lookup {A} (l : list A) (k i : nat) :
  (1 <= k)%nat ->
  flat_map (fun x => replicate k x) l !! i = l !! (i / k)%nat.
Proof.
  intros Hk. revert i.
  induction l as [|x l IH]; intros i; [done|].
  simpl. destruct (decide (i < k)%nat) as [Hlt|Hge].
  - rewrite lookup_app_l by (by rewrite length_replicate).
    rewrite Nat.div_small by done. by rewrite lookup_replicate_2.
  - rewrite lookup_app_r by (rewrite length_replicate; lia).
    rewrite length_replicate, IH.
    replace i with ((i - k) + 1 * k)%nat at 2 by lia.
    rewrite Nat.div_add by lia.
    by replace ((i - k) / k + 1)%nat with (S ((i - k) / k)) by lia.
Qed.

Lemma repeat_length {A} (l : list A) (k : nat) :
  length (flat_map (fun x => replicate k x) l) = (k * length l)%nat.
Proof.
  induction l as [|x l IH]; simpl; [lia|].
  rewrite length_app, length_replicate, IH. lia.
Qed.

(** On a non-negative float, [int] is the floor. *)
Lemma py_int_floor (x : Q) : (0 <= x)%Q -> py_int x = Qfloor x.
Proof.
  destruct x as [n d]. unfold Qle, py_int, Qfloor. simpl. intros Hn.
  apply Z.quot_div_nonneg; lia.
Qed.

Lemma floor_ge_1 (x : Q) : (1 <= x)%Q -> (1 <= Qfloor x)%Z.
Proof. intros Hx. apply (Qfloor_resp_le 1 x Hx). Qed.

Lemma inverse_gt_1 (x : Q) : (0 < x)%Q -> (x < 1)%Q -> (1 < 1 / x)%Q.
Proof.
  intros Hpos Hlt. apply Qlt_shift_div_l; [done|]. by rewrite Qmult_1_l.
Qed.

Lemma Qeq_bool_false (x y : Q) : ~ (x == y)%Q -> Qeq_bool x y = false.
Proof.
  intros Hne. destruct (Qeq_bool x y) eqn:Heq; [|done].
  by apply Qeq_bool_eq in Heq.
Qed.

Section SpeedAdjustment.
Variable E : collaborators.

Lemma adjust_speed_unit (audio : waveform) (speed : Q) :
  (speed == 1)%Q -> _adjust_speed E audio speed = Ok audio.
Proof.
  intros Hs. unfold _adjust_speed. by rewrite (Qeq_eq_bool _ _ Hs).
Qed.

Lemma adjust_speed_faster (audio : waveform) (speed : Q) :
  librosa_time_stretch E = None -> (1 < speed)%Q ->
  _adjust_speed E audio speed
  = Ok (stride 0 (Z.to_nat (Qfloor speed)) audio).
Proof.
  intros Hlib Hs. unfold _adjust_speed.
  rewrite Qeq_bool_false, Hlib
    by (intros Heq; rewrite Heq in Hs; by apply Qlt_irrefl in Hs).
  destruct (Qlt_le_dec 1 speed) as [_|Hle];
    [|by apply Qle_not_lt in Hle].
  assert (Hpos : (0 <= speed)%Q)
    by (apply Qlt_le_weak; by apply Qlt_trans with 1%Q).
  pose proof (floor_ge_1 speed (Qlt_le_weak _ _ Hs)) as Hfloor.
  unfold slice_step. rewrite (py_int_floor _ Hpos).
  destruct (Z.eqb_spec (Qfloor speed) 0) as [H0|_]; [lia|].
  destruct (Z.ltb_spec 0 (Qfloor speed)) as [_|H0]; [done|lia].
Qed.

Lemma adjust_speed_slower (audio : waveform) (speed : Q) :
  librosa_time_stretch E = None -> (0 < speed)%Q -> (speed < 1)%Q ->
  _adjust_speed E audio speed
  = Ok (flat_map (fun x => replicate (Z.to_nat (Qfloor (1 / speed))) x) audio).
Proof.
  intros Hlib Hpos Hs. unfold _adjust_speed.
  rewrite Qeq_bool_false, Hlib
    by (intros Heq; rewrite Heq in Hs; by apply Qlt_irrefl in Hs).
  destruct (Qlt_le_dec 1 speed) as [Hgt|_].
  { exfalso. apply (Qlt_irrefl 1). by apply Qlt_trans with speed. }
  rewrite Qeq_bool_false
    by (intros Heq; rewrite Heq in Hpos; by apply Qlt_irrefl in Hpos).
  pose proof (inverse_gt_1 _ Hpos Hs) as Hinv.
  assert (Hinv0 : (0 <= 1 / speed)%Q)
    by (apply Qlt_le_weak; by apply Qlt_trans with 1%Q).
  pose proof (floor_ge_1 _ (Qlt_le_weak _ _ Hinv)) as Hfloor.
  unfold np_repeat. rewrite (py_int_floor _ Hinv0).
  destruct (Z.ltb_spec (Qfloor (1 / speed)) 0) as [H0|_]; [lia|done].
Qed.
End SpeedAdjustment.

(** C5: without librosa, and for a positive speed factor (the validated
    range is [0.5, 2.0]): for [speed > 1.0] the output keeps every
    [floor(speed)]-th sample, output sample [i] being input sample
    [i * floor(speed)]; for [speed < 1.0] every input sample is repeated
    [floor(1/speed)] times, output sample [i] being input sample
    [i / floor(1/speed)]. *)
Theorem adjust_speed_fallback (E : collaborators) (audio : waveform) (speed : Q) :
  librosa_time_stretch E = None ->
  (0 < speed)%Q ->
  ((1 < speed)%Q ->
   let k := Z.to_nat (Qfloor speed) in
   exists out, _adjust_speed E audio speed = Ok out
     /\ (1 <= k)%nat
     /\ forall i, out !! i = audio !! (i * k)%nat)
  /\ ((speed < 1)%Q ->
      let k := Z.to_nat (Qfloor (1 / speed)) in
      exists out, _adjust_speed E audio speed = Ok out
        /\ (1 <= k)%nat
        /\ out = flat_map (fun x => replicate k x) audio
        /\ length out = (k * length audio)%nat
        /\ forall i, out !! i = audio !! (i / k)%nat).
Proof.
  intros Hlib Hpos. split.
  - intros Hs k.
    assert (Hk : (1 <= k)%nat).
    { pose proof (floor_ge_1 speed (Qlt_le_weak _ _ Hs)). unfold k. lia. }
    exists (stride 0 k audio). split; [by apply adjust_speed_faster|].
    split; [exact Hk|]. intros i. exact (stride_lookup audio 0 k i Hk).
  - intros Hs k.
    assert (Hk : (1 <= k)%nat).
    { pose proof (floor_ge_1 _ (Qlt_le_weak _ _ (inverse_gt_1 _ Hpos Hs))).
      unfold k. lia. }
    exists (flat_map (fun x => replicate k x) audio).
    split; [by apply adjust_speed_slower|].
    split; [exact Hk|]. split; [done|].
    split; [apply repeat_length|]. intros i. exact (repeat_lookup audio k i Hk).
Qed.

Lemma adjust_speed_fallback_witness :
  let E := deployment true true two_chunks in
  (exists out, _adjust_speed E [1; 2; 3; 4; 5; 6; 7]%Q (5 # 2) = Ok out
     /\ (1 <= 2)%nat
     /\ forall i, out !! i = ([1; 2; 3; 4; 5; 6; 7]%Q : waveform) !! (i * 2)%nat)
  /\ (exists out, _adjust_speed E [1; 2; 3]%Q (2 # 5) = Ok out
        /\ (1 <= 2)%nat
        /\ out = [1; 1; 2; 2; 3; 3]%Q
        /\ length out = 6%nat
        /\ forall i, out !! i = ([1; 2; 3]%Q : waveform) !! (i / 2)%nat).
Proof.
  intros E. split.
  - exact (proj1 (adjust_speed_fallback E [1; 2; 3; 4; 5; 6; 7]%Q (5 # 2)
                    eq_refl eq_refl) eq_refl).
  - exact (proj2 (adjust_speed_fallback E [1; 2; 3]%Q (2 # 5)
                    eq_refl eq_refl) eq_refl).
Defined.

(** Slicing a constant waveform of [step * n] samples leaves [n] of them. *)
Lemma stride_replicate {A} (x : A) (step n : nat) :
  (1 <= step)%nat ->
  stride 0 step (replicate (step * n) x) = replicate n x.
Proof.
  intros Hstep. apply list_eq. intros i.
  rewrite stride_lookup by done. simpl.
  destruct (decide (i < n)%nat) as [Hlt|Hge].
  - rewrite !lookup_replicate_2; [done|done|nia].
  - transitivity (@None A); [|symmetry];
      apply lookup_replicate_None; nia.
Qed.

Lemma le_bytes_length (n : nat) (z : Z) : length (le_bytes n z) = n.
Proof. revert z. induction n as [|n IH]; intros z; simpl; [done|]. by rewrite IH. Qed.

(** The size of the file: 44 bytes of header, two bytes per sample. *)
Lemma sf_write_length (quantize : Q -> Z) (audio : waveform) (rate : Z) :
  length (sf_write quantize audio rate) = (44 + 2 * length audio)%nat.
Proof.
  unfold sf_write. rewrite !length_app, !le_bytes_length.
  assert (Hdata : length (flat_map (fun x => le_bytes 2 (quantize x)) audio)
                  = (2 * length audio)%nat).
  { induction audio as [|x audio IH]; simpl; [done|]. simpl in IH. lia. }
  rewrite Hdata. simpl. lia.
Qed.

Lemma wav_pcm16_length (audio : waveform) (rate : Z) :
  length (wav_pcm16 audio rate) = (44 + 2 * length audio)%nat.
Proof. apply sf_write_length. Qed.

(** ** The fallback within the validated range of the speed *)

Lemma stride_one {A} (l : list A) : stride 0 1 l = l.
Proof. induction l as [|x l IH]; simpl; [done|]. by rewrite IH. Qed.

Lemma repeat_one {A} (l : list A) : flat_map (fun x => replicate 1 x) l = l.
Proof.
  induction l as [|x l IH]; [done|]. cbn [flat_map]. rewrite IH. reflexivity.
Qed.

Lemma repeat_replicate {A} (x : A) (k n : nat) :
  flat_map (fun y => replicate k y) (replicate n x) = replicate (n * k) x.
Proof.
  induction n as [|n IH]; [done|].
  cbn [replicate flat_map Nat.mul]. rewrite IH. by rewrite replicate_add.
Qed.

Lemma floor_eq_1 (x : Q) : (1 <= x)%Q -> (x < 2)%Q -> Qfloor x = 1%Z.
Proof.
  intros Hlo Hhi.
  pose proof (floor_ge_1 x Hlo) as Hge.
  assert (Hlt : (Qfloor x < 2)%Z).
  { rewrite Zlt_Qlt. apply Qle_lt_trans with x; [apply Qfloor_le|exact Hhi]. }
  lia.
Qed.

Lemma inverse_lt_2 (x : Q) : (1 # 2 < x)%Q -> (1 / x < 2)%Q.
Proof.
  intros Hx.
  assert (Hpos : (0 < x)%Q) by (by apply Qlt_trans with (1 # 2)%Q).
  apply Qlt_shift_div_r; [exact Hpos|].
  destruct x as [n d]. unfold Qlt in *. simpl in *. lia.
Qed.

Section ValidSpeed.
Variable E : collaborators.
Hypothesis no_librosa : librosa_time_stretch E = None.

Lemma adjust_speed_between (audio : waveform) (speed : Q) :
  (1 # 2 < speed)%Q -> (speed < 2)%Q -> _adjust_speed E audio speed = Ok audio.
Proof.
  intros Hlo Hhi.
  assert (Hpos : (0 < speed)%Q) by (by apply Qlt_trans with (1 # 2)%Q).
  destruct (Q_dec speed 1) as [[Hlt|Hgt]|Heq].
  - rewrite adjust_speed_slower by done.
    rewrite (floor_eq_1 (1 / speed))
      by (first [apply Qlt_le_weak; by apply inverse_gt_1
                |by apply inverse_lt_2]).
    change (Z.to_nat 1) with 1%nat. by rewrite repeat_one.
  - rewrite adjust_speed_faster by done.
    rewrite (floor_eq_1 speed) by (first [by apply Qlt_le_weak|done]).
    change (Z.to_nat 1) with 1%nat. by rewrite stride_one.
  - by apply adjust_speed_unit.
Qed.

Lemma adjust_speed_double (audio : waveform) (speed : Q) :
  (speed == 2)%Q -> _adjust_speed E audio speed = Ok (stride 0 2 audio).
Proof.
  intros Hs.
  rewrite adjust_speed_faster by (first [done|by rewrite Hs]).
  by rewrite (Qfloor_comp _ _ Hs).
Qed.

Lemma adjust_speed_half (audio : waveform) (speed : Q) :
  (speed == 1 # 2)%Q ->
  _adjust_speed E audio speed = Ok (flat_map (fun x => replicate 2 x) audio).
Proof.
  intros Hs.
  rewrite adjust_speed_slower by (first [done|by rewrite Hs]).
  assert (Hinv : (1 / speed == 2)%Q) by (by rewrite Hs).
  by rewrite (Qfloor_comp _ _ Hinv).
Qed.

(** What the fallback does at every speed that the request model accepts. *)
Lemma adjust_speed_valid_range (audio : waveform) (speed : Q) :
  (1 # 2 <= speed)%Q -> (speed <= 2)%Q ->
  _adjust_speed E audio speed
  = Ok (if Qeq_bool speed 2 then stride 0 2 audio
        else if Qeq_bool speed (1 # 2)
             then flat_map (fun x => replicate 2 x) audio
             else audio).
Proof.
  intros Hlo Hhi.
  destruct (Qeq_bool speed 2) eqn:H2.
  { apply adjust_speed_double. by apply Qeq_bool_eq. }
  destruct (Qeq_bool speed (1 # 2)) eqn:Hhalf.
  { apply adjust_speed_half. by apply Qeq_bool_eq. }
  apply adjust_speed_between.
  - apply Qle_lt_or_eq in Hlo as [Hlt|Heq]; [done|].
    symmetry in Heq. apply Qeq_eq_bool in Heq. congruence.
  - apply Qle_lt_or_eq in Hhi as [Hlt|Heq]; [done|].
    apply Qeq_eq_bool in Heq. congruence.
Qed.

(** One second of silence after the fallback, at a speed that the request
    model accepts: 12000, 24000 or 48000 zero samples. *)
Lemma adjust_speed_silence (speed : Q) :
  (1 # 2 <= speed)%Q -> (speed <= 2)%Q ->
  _adjust_speed E (np_zeros 24000) speed
  = Ok (np_zeros (if Qeq_bool speed 2 then 12000
                  else if Qeq_bool speed (1 # 2) then 48000 else 24000)).
Proof.
  intros Hlo Hhi. rewrite adjust_speed_valid_range by done.
  apply (f_equal Ok). unfold np_zeros.
  destruct (Qeq_bool speed 2); [|destruct (Qeq_bool speed (1 # 2))].
  - replace (Z.to_nat 24000) with (2 * Z.to_nat 12000)%nat by lia.
    apply stride_replicate. lia.
  - rewrite repeat_replicate.
    by replace (Z.to_nat 48000) with (Z.to_nat 24000 * 2)%nat by lia.
  - reflexivity.
Qed.
End ValidSpeed.

(** ** Synthesis *)

Section Synthesis.
Variable E : collaborators.

Lemma synthesize_sync_no_segments self p txt voice w :
  kokoro_pipeline self = Some p ->
  kokoro_generate E p txt voice = Ok [] ->
  _synthesize_sync E self txt voice w
  = (Ok (np_zeros 24000), record_call (KokoroSynthesize p txt voice) w).
Proof.
  intros Hp Hgen. unfold _synthesize_sync. by rewrite Hp, Hgen.
Qed.

(** What [synthesize_speech] does once the guard is passed. *)
Lemma synthesize_speech_ready self txt voice speed pitch w :
  _initialized self = true ->
  kokoro_pipeline self <> None ->
  synthesize_speech E self txt voice speed pitch w
  = (reraise_as_runtime "Speech synthesis failed: "
       (audio <- (_synthesize_sync E self txt voice w).1 ;;
        adjusted <- _adjust_speed E audio speed ;;
        Ok (_audio_to_wav_bytes E adjusted 24000)),
     self, (_synthesize_sync E self txt voice w).2).
Proof.
  intros Hi Hp. unfold synthesize_speech.
  rewrite Hi, (bool_decide_eq_false_2 _ Hp).
  cbn [negb orb].
  destruct (_synthesize_sync E self txt voice w) as [[audio|e] w1];
    cbn [fst snd bind]; [|done].
  destruct (Qeq_bool speed 1) eqn:Hs; cbn [negb]; [|done].
  unfold _adjust_speed. by rewrite Hs.
Qed.
End Synthesis.

(** C6: with [speed = 1.0] the speed adjustment is the identity on every
    waveform, and [synthesize_speech] encodes the very waveform that
    [_synthesize_sync] produced (same samples, hence same length). *)
Theorem unit_speed_is_identity
    (E : collaborators) (self : SpeechService) (txt voice : string)
    (speed pitch : Q) (w : world) :
  (speed == 1)%Q ->
  (forall audio, _adjust_speed E audio speed = Ok audio)
  /\ (forall audio w1,
        _initialized self = true -> kokoro_pipeline self <> None ->
        _synthesize_sync E self txt voice w = (Ok audio, w1) ->
        synthesize_speech E self txt voice speed pitch w
        = (Ok (_audio_to_wav_bytes E audio 24000), self, w1)).
Proof.
  intros Hs. split.
  - intros audio. by apply adjust_speed_unit.
  - intros audio w1 Hi Hp Hsync.
    rewrite synthesize_speech_ready, Hsync by done.
    cbn [fst snd bind]. by rewrite (adjust_speed_unit E audio speed Hs).
Qed.

Lemma unit_speed_is_identity_witness :
  let E := deployment true true two_chunks in
  synthesize_speech E ready "Hello world" "af_heart" (2 # 2) 1 empty_world
  = (Ok (_audio_to_wav_bytes E [0; 1 # 4; 1 # 2; 1 # 4; 0]%Q 24000), ready,
     record_call (KokoroSynthesize (Handle 2) "Hello world" "af_heart") empty_world).
Proof.
  intros E.
  apply (proj2 (unit_speed_is_identity E ready "Hello world" "af_heart"
                  (2 # 2) 1 empty_world eq_refl)).
  - reflexivity.
  - discriminate.
  - reflexivity.
Defined.

(** C3 as stated fails: with the valid parameters ("Hello world", af_heart,
    speed 2.0, pitch 1.0) and an engine that yields no segment, the bytes
    returned are not the encoding of 24000 zero samples: the silence went
    through the speed adjustment and only 12000 samples are encoded. *)
Lemma silence_not_one_second_at_double_speed :
  let E := deployment true true [] in
  valid_parameters "Hello world" 2 1
  /\ kokoro_generate E (Handle 2) "Hello world" "af_heart" = Ok []
  /\ returned (synthesize_speech E ready "Hello world" "af_heart" 2 1 empty_world)
     = Ok (_audio_to_wav_bytes E (np_zeros 12000) 24000)
  /\ returned (synthesize_speech E ready "Hello world" "af_heart" 2 1 empty_world)
     <> Ok (_audio_to_wav_bytes E (np_zeros 24000) 24000).
Proof.
  intros E.
  assert (Hret :
    returned (synthesize_speech E ready "Hello world" "af_heart" 2 1 empty_world)
    = Ok (_audio_to_wav_bytes E (np_zeros 12000) 24000)).
  { unfold returned. rewrite synthesize_speech_ready by done.
    rewrite (synthesize_sync_no_segments E ready (Handle 2)) by done.
    cbn [fst snd bind].
    rewrite (adjust_speed_faster E (np_zeros 24000) 2) by done.
    cbn [bind reraise_as_runtime].
    apply (f_equal (fun audio => Ok (_audio_to_wav_bytes E audio 24000))).
    change (Z.to_nat (Qfloor 2)) with 2%nat. unfold np_zeros.
    replace (Z.to_nat 24000) with (2 * Z.to_nat 12000)%nat by lia.
    apply stride_replicate. lia. }
  split; [|split; [reflexivity|split; [exact Hret|]]].
  - unfold valid_parameters. repeat split; vm_compute; (lia || discriminate).
  - rewrite Hret. intros Heq. apply Ok_inj in Heq.
    apply (f_equal length) in Heq.
    unfold _audio_to_wav_bytes in Heq.
    rewrite !sf_write_length in Heq. unfold np_zeros in Heq.
    rewrite !length_replicate in Heq. lia.
Qed.

(** C3, amended: when the engine yields no segment, one second of silence
    (24000 zero samples) takes the place of the synthesized waveform before
    the speed adjustment, and the bytes returned are the WAVE file at
    24000 Hz of the adjusted silence.  With [speed = 1.0] they are exactly
    the file of the 24000 zero samples.  Whenever the call returns, the
    bytes are not empty: the file has its 44 bytes of header.  For every
    valid input, when librosa is absent, the call does return, and the file
    holds silence of 12000 samples at speed 2.0, of 48000 at speed 0.5 and of
    24000 at every other speed, in 44 bytes and two per sample. *)
Theorem silence_when_no_segments
    (E : collaborators) (self : SpeechService) (p : handle)
    (txt voice : string) (speed pitch : Q) (w : world) :
  _initialized self = true ->
  kokoro_pipeline self = Some p ->
  kokoro_generate E p txt voice = Ok [] ->
  let o := synthesize_speech E self txt voice speed pitch w in
  returned o
  = reraise_as_runtime "Speech synthesis failed: "
      (adjusted <- _adjust_speed E (np_zeros 24000) speed ;;
       Ok (_audio_to_wav_bytes E adjusted 24000))
  /\ ((speed == 1)%Q ->
      returned o = Ok (_audio_to_wav_bytes E (np_zeros 24000) 24000))
  /\ (forall encoded,
        returned o = Ok encoded ->
        encoded <> [] /\ (44 <= length encoded)%nat)
  /\ (valid_parameters txt speed pitch ->
      librosa_time_stretch E = None ->
      let samples := (if Qeq_bool speed 2 then 12000
                      else if Qeq_bool speed (1 # 2) then 48000
                      else 24000)%Z in
      returned o = Ok (_audio_to_wav_bytes E (np_zeros samples) 24000)
      /\ length (_audio_to_wav_bytes E (np_zeros samples) 24000)
         = (44 + 2 * Z.to_nat samples)%nat).
Proof.
  intros Hi Hp Hgen o.
  assert (Ho : returned o
    = reraise_as_runtime "Speech synthesis failed: "
        (adjusted <- _adjust_speed E (np_zeros 24000) speed ;;
         Ok (_audio_to_wav_bytes E adjusted 24000))).
  { unfold o. rewrite synthesize_speech_ready by (by rewrite ?Hp).
    by rewrite (synthesize_sync_no_segments E self p txt voice w Hp Hgen). }
  split; [exact Ho|]. split; [|split].
  - intros Hs. rewrite Ho, (adjust_speed_unit E _ speed Hs). reflexivity.
  - intros encoded. rewrite Ho.
    destruct (_adjust_speed E (np_zeros 24000) speed) as [adjusted|e];
      cbn [bind reraise_as_runtime]; [|by destruct (is_exception e)].
    intros Hret. apply Ok_inj in Hret.
    assert (Hlen : length encoded = (44 + 2 * length adjusted)%nat).
    { rewrite <- Hret. apply sf_write_length. }
    split; [|lia].
    intros Hnil. rewrite Hnil in Hlen. cbn [length] in Hlen. lia.
  - intros (_ & Hlo & Hhi & _) Hlib samples. split.
    + rewrite Ho, (adjust_speed_silence E Hlib speed Hlo Hhi). reflexivity.
    + unfold _audio_to_wav_bytes. rewrite sf_write_length.
      unfold np_zeros. by rewrite length_replicate.
Qed.

Lemma silence_when_no_segments_witness :
  let E := deployment true true [] in
  let o := synthesize_speech E ready "Hello world" "af_heart" (1 # 2) 1
             empty_world in
  returned o = Ok (_audio_to_wav_bytes E (np_zeros 48000) 24000)
  /\ length (_audio_to_wav_bytes E (np_zeros 48000) 24000)
     = (44 + 2 * Z.to_nat 48000)%nat.
Proof.
  intros E o.
  assert (Hvalid : valid_parameters "Hello world" (1 # 2) 1).
  { unfold valid_parameters.
    repeat split; vm_compute; (lia || discriminate). }
  exact (proj2 (proj2 (proj2 (silence_when_no_segments E ready (Handle 2)
                                "Hello world" "af_heart" (1 # 2) 1 empty_world
                                eq_refl eq_refl eq_refl))) Hvalid eq_refl).
Defined.

(** * Further properties of the code *)

(** ** What [transcribe_audio] returns *)

Lemma last_char_None (s : string) : last_char s = None -> s = "".
Proof.
  induction s as [|c s IH]; [done|]. simpl.
  destruct s; [done|]. intros H. by apply IH in H.
Qed.

Lemma last_char_cons (c : Ascii.ascii) (s : string) :
  last_char (String c s) = match last_char s with Some d => Some d | None => Some c end.
Proof.
  destruct s as [|d s]; [done|].
  change (last_char (String c (String d s))) with (last_char (String d s)).
  destruct (last_char (String d s)) eqn:Hl; [done|].
  by apply last_char_None in Hl.
Qed.

Lemma last_char_app (s t : string) :
  last_char (s ++ t)
  = match last_char t with Some c => Some c | None => last_char s end.
Proof.
  induction s as [|c s IH].
  - change ("" ++ t) with t. by destruct (last_char t).
  - change (String c s ++ t) with (String c (s ++ t)).
    rewrite !last_char_cons, IH. by destruct (last_char t).
Qed.

(** An ASCII whitespace byte is a character that [isspace] accepts, and is
    neither a continuation byte nor a leading byte. *)
Lemma ascii_whitespace (c : Ascii.ascii) :
  is_whitespace c = true ->
  isspace (String c EmptyString) = true
  /\ is_continuation c = false
  /\ width c = 1%nat.
Proof.
  destruct c as [[] [] [] [] [] [] [] []]; vm_compute;
    first [discriminate | by intros _].
Qed.

Lemma all_continuation_last (s : string) (c : Ascii.ascii) :
  all_continuation s = true -> last_char s = Some c -> is_continuation c = true.
Proof.
  induction s as [|a s IH]; [done|].
  cbn [all_continuation]. intros [Ha Hs]%andb_true_iff.
  rewrite last_char_cons.
  destruct (last_char s) as [d|] eqn:Hd.
  - intros [= <-]. by apply IH.
  - by intros [= <-].
Qed.

Lemma take_continuations_spec (k : nat) (chars : list string)
    (tail : string) (rest : list string) :
  take_continuations k chars = Some (tail, rest) ->
  all_continuation tail = true
  /\ (k = 0%nat -> tail = EmptyString)
  /\ exists taken, chars = (taken ++ rest)%list.
Proof.
  revert chars tail. induction k as [|k IH]; intros chars tail.
  - intros [= <- <-]. split; [done|]. split; [done|]. by exists [].
  - cbn [take_continuations].
    destruct chars as [|[|c [|d s]] chars]; try done.
    destruct (is_continuation c) eqn:Hc; [|done].
    destruct (take_continuations k chars) as [[tail' rest']|] eqn:Htake; [|done].
    intros [= <- <-].
    destruct (IH _ _ Htake) as (Hall & _ & taken & ->).
    split; [cbn; by rewrite Hc|]. split; [done|].
    by exists (String c EmptyString :: taken).
Qed.

Lemma characters_well_formed (s : string) : Forall well_formed (characters s).
Proof.
  induction s as [|c s IH]; [constructor|].
  cbn [characters].
  destruct (take_continuations (width c - 1) (characters s))
    as [[tail rest]|] eqn:Htake.
  - destruct (take_continuations_spec _ _ _ _ Htake) as (Hall & Hzero & taken & Heq).
    rewrite Heq in IH. apply Forall_app in IH as [_ IH].
    constructor; [|exact IH].
    exists c, tail. split; [done|]. split; [done|].
    destruct (decide (width c = 1%nat)) as [Hw|Hw]; [|by right].
    left. apply Hzero. by rewrite Hw.
  - constructor; [|exact IH].
    exists c, EmptyString. split; [done|]. split; [done|by left].
Qed.

Lemma characters_empty (s : string) : characters s = [] -> s = "".
Proof.
  destruct s as [|c s]; [done|]. cbn [characters].
  by destruct (take_continuations _ _) as [[tail rest]|].
Qed.

Lemma py_len_zero (s : string) : py_len s = 0%nat <-> s = "".
Proof.
  split; [|by intros ->].
  unfold py_len. intros Hlen. apply characters_empty.
  by destruct (characters s).
Qed.

Lemma well_formed_first (char : string) (c : Ascii.ascii) :
  well_formed char -> first_char char = Some c -> is_whitespace c = true ->
  isspace char = true.
Proof.
  intros (c0 & tail & -> & _ & Htail) [= <-] Hc.
  destruct (ascii_whitespace c0 Hc) as (Hspace & _ & Hw).
  by destruct Htail as [->|Hwide].
Qed.

Lemma well_formed_last (char : string) (c : Ascii.ascii) :
  well_formed char -> last_char char = Some c -> is_whitespace c = true ->
  isspace char = true.
Proof.
  intros (c0 & tail & -> & Hall & _) Hlast Hc.
  destruct (ascii_whitespace c Hc) as (Hspace & Hcont & _).
  rewrite last_char_cons in Hlast.
  destruct (last_char tail) as [d|] eqn:Hd.
  - injection Hlast as ->.
    by rewrite (all_continuation_last tail c Hall Hd) in Hcont.
  - injection Hlast as ->. by apply last_char_None in Hd as ->.
Qed.

Lemma lstrip_head (chars : list string) (char : string) (rest : list string) :
  lstrip chars = char :: rest -> isspace char = false.
Proof.
  induction chars as [|a chars IH]; [done|]. cbn [lstrip].
  destruct (isspace a) eqn:Ha; [exact IH|]. by intros [= <- _].
Qed.

Lemma lstrip_suffix (chars : list string) :
  exists removed, chars = (removed ++ lstrip chars)%list.
Proof.
  induction chars as [|a chars [removed IH]]; [by exists []|].
  cbn [lstrip]. destruct (isspace a); [|by exists []].
  exists (a :: removed). by rewrite IH at 1.
Qed.

Lemma join_first (char : string) (rest : list string) :
  well_formed char -> first_char (join (char :: rest)) = first_char char.
Proof. by intros (c & tail & -> & _). Qed.

Lemma join_last (chars : list string) (char : string) :
  well_formed char ->
  last_char (join (chars ++ [char])) = last_char char.
Proof.
  intros (c & tail & -> & _).
  induction chars as [|a chars IH].
  - cbn [app join fold_right]. rewrite last_char_app. cbn [last_char].
    by destruct (last_char (String c tail)) eqn:Hl;
      [|apply last_char_None in Hl].
  - cbn [app join fold_right] in *. rewrite last_char_app.
    unfold join in IH. rewrite IH.
    by destruct (last_char (String c tail)) eqn:Hl;
      [|apply last_char_None in Hl].
Qed.

Lemma strip_trimmed (s : string) : trimmed (strip s).
Proof.
  unfold trimmed, strip.
  set (A := lstrip (characters s)). set (B := lstrip (rev A)).
  assert (HA : Forall well_formed A).
  { destruct (lstrip_suffix (characters s)) as [removed Heq].
    pose proof (characters_well_formed s) as Hwf.
    rewrite Heq in Hwf. by apply Forall_app in Hwf as [_ Hwf]. }
  destruct (lstrip_suffix (rev A)) as [removed HrevA]. fold B in HrevA.
  assert (HB : Forall well_formed B).
  { apply Forall_rev in HA. rewrite HrevA in HA.
    by apply Forall_app in HA as [_ HA]. }
  split; intros c Hc.
  - destruct (rev B) as [|char R] eqn:HR; [done|].
    assert (HBeq : B = (rev R ++ [char])%list).
    { rewrite <- (rev_involutive B), HR. reflexivity. }
    assert (Hwf : well_formed char).
    { rewrite HBeq in HB. apply Forall_app in HB as [_ HB].
      by apply Forall_inv in HB. }
    rewrite (join_first char R Hwf) in Hc.
    destruct (is_whitespace c) eqn:Hws; [|done].
    pose proof (well_formed_first char c Hwf Hc Hws) as Hspace.
    assert (HAeq : A = char :: (R ++ rev removed)%list).
    { rewrite <- (rev_involutive A), HrevA, HBeq.
      rewrite !rev_app_distr, rev_involutive. reflexivity. }
    apply lstrip_head in HAeq. congruence.
  - destruct B as [|char B'] eqn:HBeq; [done|].
    assert (Hwf : well_formed char) by (by apply Forall_inv in HB).
    change (rev (char :: B')) with (rev B' ++ [char])%list in Hc.
    rewrite (join_last _ char Hwf) in Hc.
    destruct (is_whitespace c) eqn:Hws; [|done].
    pose proof (well_formed_last char c Hwf Hc Hws) as Hspace.
    apply lstrip_head in HBeq. congruence.
Qed.

Section TranscriptionProperties.
Variable E : collaborators.

(** A call that gets past the guard and stages the audio. *)
Lemma transcribe_audio_staged self m audio lang w :
  _initialized self = true ->
  whisper_model self = Some m ->
  temp_create_error E = None ->
  temp_write_error E audio = None ->
  transcribe_audio E self audio lang w
  = (reraise_as_runtime "Transcription failed: "
       (result <- whisper_transcribe E m (fresh (files w)) (language_option lang) ;;
        Ok {| text := strip (wr_text result);
              language := default "unknown" (wr_language result);
              confidence := _calculate_confidence result;
              duration := default 0%Q (wr_duration result) |}),
     self,
     {| files := files w;
        calls := calls w ++ [WhisperTranscribe m (fresh (files w)) (language_option lang)] |}).
Proof.
  intros Hi Hm Hcreate Hwrite. unfold transcribe_audio.
  rewrite Hi, Hm, Hcreate. cbn [negb orb create_temp].
  rewrite bool_decide_eq_false_2 by done. rewrite Hwrite.
  unfold _transcribe_sync. rewrite Hm.
  assert (Hin : fresh (files w) ∈ ({[fresh (files w)]} ∪ files w : gset path)).
  { apply elem_of_union_l. by apply elem_of_singleton. }
  rewrite (bool_decide_eq_true_2 _ Hin).
  unfold unlink, record_call, language_option. cbn [files calls].
  assert (Hback : ({[fresh (files w)]} ∪ files w) ∖ {[fresh (files w)]} = files w).
  { pose proof (is_fresh (files w)) as Hnew.
    apply set_eq. intros x.
    rewrite elem_of_difference, elem_of_union, elem_of_singleton.
    split; [tauto|]. intros Hx. split; [tauto|]. by intros ->. }
  by rewrite Hback.
Qed.

(** Every result that [transcribe_audio] returns was built from an answer
    of the engine. *)
Lemma transcribe_audio_returns self audio lang w t :
  returned (transcribe_audio E self audio lang w) = Ok t ->
  exists result,
    t = {| text := strip (wr_text result);
           language := default "unknown" (wr_language result);
           confidence := _calculate_confidence result;
           duration := default 0%Q (wr_duration result) |}.
Proof.
  unfold transcribe_audio.
  destruct (negb (_initialized self) || bool_decide (whisper_model self = None));
    [done|].
  destruct (temp_create_error E) as [e|];
    [unfold returned; cbn; by destruct (is_exception e)|].
  cbn [create_temp].
  destruct (temp_write_error E audio) as [e|];
    [unfold returned; cbn; by destruct (is_exception e)|].
  unfold _transcribe_sync.
  destruct (whisper_model self) as [m|]; [|done].
  destruct (whisper_transcribe E m _ _) as [result|e];
    [|unfold returned; cbn; by destruct (is_exception e)].
  unfold returned. cbn. intros [= <-]. by exists result.
Qed.
End TranscriptionProperties.

(** X1: a successful transcription.  On an initialized service, when the
    audio is staged and the engine answers, [transcribe_audio] returns the
    engine's text stripped, its language or "unknown", its duration or 0.0,
    and the derived confidence; the engine was called once, on a file that
    did not exist before, with the language forced unless it is "auto"; the
    staging files and the service object are as before. *)
Theorem transcribe_audio_success
    (E : collaborators) (self : SpeechService) (m : handle)
    (audio : bytes) (lang : string) (w : world) (result : whisper_result) :
  _initialized self = true ->
  whisper_model self = Some m ->
  temp_create_error E = None ->
  temp_write_error E audio = None ->
  whisper_transcribe E m (fresh (files w)) (language_option lang) = Ok result ->
  (fresh (files w) ∉ files w)
  /\ transcribe_audio E self audio lang w
     = (Ok {| text := strip (wr_text result);
              language := default "unknown" (wr_language result);
              confidence := _calculate_confidence result;
              duration := default 0%Q (wr_duration result) |},
        self,
        {| files := files w;
           calls := calls w
             ++ [WhisperTranscribe m (fresh (files w)) (language_option lang)] |}).
Proof.
  intros Hi Hm Hcreate Hwrite Hengine. split; [apply is_fresh|].
  rewrite (transcribe_audio_staged E self m) by done. by rewrite Hengine.
Qed.

Lemma transcribe_audio_success_witness :
  let E := deployment true true two_chunks in
  let result := {| wr_text := " two coffees please ";
                   wr_language := Some "en";
                   wr_duration := Some (3 # 2);
                   wr_segments := Some [ {| avg_logprob := Some (-1)%R |} ] |} in
  transcribe_audio E ready [] "fr" empty_world
  = (Ok {| text := strip " two coffees please ";
           language := "en";
           confidence := _calculate_confidence result;
           duration := 3 # 2 |},
     ready,
     {| files := ∅;
        calls := [WhisperTranscribe (Handle 1) (fresh (∅ : gset path)) (Some "fr")] |}).
Proof.
  intros E result.
  exact (proj2 (transcribe_audio_success E ready (Handle 1) [] "fr" empty_world
                  result eq_refl eq_refl eq_refl eq_refl eq_refl)).
Defined.

(** X2: when the engine raises an [Exception], [transcribe_audio] raises a
    [RuntimeError] that carries the engine's message after
    "Transcription failed: "; a cancellation at the [await] (or any other
    exception that is not an [Exception]) leaves the method as it is.  In
    both cases the staging file is gone and the service object is
    unchanged. *)
Theorem transcribe_audio_engine_failure
    (E : collaborators) (self : SpeechService) (m : handle)
    (audio : bytes) (lang : string) (w : world) (e : exn) :
  _initialized self = true ->
  whisper_model self = Some m ->
  temp_create_error E = None ->
  temp_write_error E audio = None ->
  whisper_transcribe E m (fresh (files w)) (language_option lang) = Raise e ->
  let o := transcribe_audio E self audio lang w in
  returned o
  = Raise (if is_exception e
           then RuntimeError ("Transcription failed: " ++ str e)
           else e)
  /\ service_after o = self
  /\ files (world_after o) = files w.
Proof.
  intros Hi Hm Hcreate Hwrite Hengine o. unfold o.
  rewrite (transcribe_audio_staged E self m) by done. rewrite Hengine.
  unfold returned. cbn. by destruct (is_exception e).
Qed.

Lemma transcribe_audio_engine_failure_witness :
  let E := {| whisper_load_model := fun _ => Ok (Handle 1);
              KPipeline := fun _ => Ok (Handle 2);
              temp_create_error := None;
              temp_write_error := fun _ => None;
              whisper_transcribe := fun _ _ _ =>
                Raise (OtherException "CUDA out of memory");
              kokoro_generate := fun _ _ _ => Ok [];
              librosa_time_stretch := None;
              sf_pcm_16 := pcm16;
              cuda_is_available := true |} in
  returned (transcribe_audio E ready [] "auto" empty_world)
  = Raise (RuntimeError "Transcription failed: CUDA out of memory").
Proof.
  intros E.
  exact (proj1 (transcribe_audio_engine_failure E ready (Handle 1) [] "auto"
                  empty_world (OtherException "CUDA out of memory")
                  eq_refl eq_refl eq_refl eq_refl eq_refl)).
Defined.

(** X3: the text of every result that [transcribe_audio] returns has no
    whitespace character at either end. *)
Theorem transcribe_audio_text_trimmed
    (E : collaborators) (self : SpeechService) (audio : bytes) (lang : string)
    (w : world) (t : transcription) :
  returned (transcribe_audio E self audio lang w) = Ok t ->
  trimmed (text t).
Proof.
  intros Hret. apply transcribe_audio_returns in Hret as [result ->].
  apply strip_trimmed.
Qed.

Lemma transcribe_audio_text_trimmed_witness :
  trimmed (strip " two coffees please ").
Proof.
  set (E := deployment true true two_chunks).
  set (result := {| wr_text := " two coffees please ";
                    wr_language := Some "en";
                    wr_duration := Some (3 # 2);
                    wr_segments := Some [ {| avg_logprob := Some (-1)%R |} ] |}).
  apply (transcribe_audio_text_trimmed E ready [] "auto" empty_world
           {| text := strip " two coffees please ";
              language := "en";
              confidence := _calculate_confidence result;
              duration := 3 # 2 |}).
  reflexivity.
Defined.

(** ** What the two request methods never do *)

Section Frames.
Variable E : collaborators.

Lemma transcribe_audio_effects self audio lang w :
  let o := transcribe_audio E self audio lang w in
  service_after o = self
  /\ (files (world_after o) = files w
      \/ files (world_after o) = {[fresh (files w)]} ∪ files w)
  /\ (calls (world_after o) = calls w
      \/ exists m,
           whisper_model self = Some m
           /\ calls (world_after o)
              = (calls w ++ [WhisperTranscribe m (fresh (files w)) (language_option lang)])%list).
Proof.
  intros o. unfold o, transcribe_audio.
  destruct (_initialized self) eqn:Hi; cbn [negb orb];
    [|by repeat split; left].
  destruct (whisper_model self) as [m|] eqn:Hm;
    [|by repeat split; left].
  rewrite bool_decide_eq_false_2 by done.
  destruct (temp_create_error E) as [e|] eqn:Hcreate;
    [by repeat split; left|].
  cbn [create_temp].
  destruct (temp_write_error E audio) as [e|] eqn:Hwrite.
  { split; [done|]. split; [by right|by left]. }
  pose proof (transcribe_audio_staged E self m audio lang w Hi Hm Hcreate Hwrite)
    as Hstaged.
  unfold transcribe_audio in Hstaged.
  rewrite Hi, Hm, Hcreate in Hstaged. cbn [negb orb create_temp] in Hstaged.
  rewrite bool_decide_eq_false_2, Hwrite in Hstaged by done.
  rewrite Hstaged. split; [done|]. split; [by left|]. right. by exists m.
Qed.

Lemma synthesize_speech_effects self txt voice speed pitch w :
  let o := synthesize_speech E self txt voice speed pitch w in
  service_after o = self
  /\ files (world_after o) = files w
  /\ (calls (world_after o) = calls w
      \/ exists p,
           kokoro_pipeline self = Some p
           /\ calls (world_after o) = (calls w ++ [KokoroSynthesize p txt voice])%list).
Proof.
  intros o. unfold o, synthesize_speech.
  destruct (_initialized self) eqn:Hi; cbn [negb orb];
    [|by repeat split; left].
  destruct (kokoro_pipeline self) as [p|] eqn:Hp;
    [|by repeat split; left].
  rewrite bool_decide_eq_false_2 by done.
  unfold _synthesize_sync. rewrite Hp.
  destruct (kokoro_generate E p txt voice) as [generated|e].
  - destruct (is_nonempty _); (split; [done|]); (split; [done|]);
      right; by exists p.
  - split; [done|]. split; [done|]. right. by exists p.
Qed.
Lemma transcribe_audio_raises self audio lang w e :
  returned (transcribe_audio E self audio lang w) = Raise e ->
  e = RuntimeError "Whisper model not initialized"
  \/ (exists cause,
        is_exception cause = true
        /\ e = RuntimeError ("Transcription failed: " ++ str cause))
  \/ is_exception e = false.
Proof.
  assert (Hwrap : forall (r : result transcription),
    reraise_as_runtime "Transcription failed: " r = Raise e ->
    e = RuntimeError "Whisper model not initialized"
    \/ (exists cause,
          is_exception cause = true
          /\ e = RuntimeError ("Transcription failed: " ++ str cause))
    \/ is_exception e = false).
  { intros [t|e0]; [done|]. cbn.
    destruct (is_exception e0) eqn:He0; intros [= <-].
    - right. left. by exists e0.
    - right. by right. }
  unfold transcribe_audio.
  destruct (negb (_initialized self) || bool_decide (whisper_model self = None)).
  { intros [= <-]. by left. }
  destruct (temp_create_error E) as [e0|]; [apply Hwrap|].
  cbn [create_temp].
  destruct (temp_write_error E audio) as [e0|]; [apply Hwrap|].
  destruct (_transcribe_sync E self _ lang _) as [r w2]. apply Hwrap.
Qed.

Lemma synthesize_speech_raises self txt voice speed pitch w e :
  returned (synthesize_speech E self txt voice speed pitch w) = Raise e ->
  e = RuntimeError "Kokoro pipeline not initialized"
  \/ (exists cause,
        is_exception cause = true
        /\ e = RuntimeError ("Speech synthesis failed: " ++ str cause))
  \/ is_exception e = false.
Proof.
  assert (Hwrap : forall (r : result bytes),
    reraise_as_runtime "Speech synthesis failed: " r = Raise e ->
    e = RuntimeError "Kokoro pipeline not initialized"
    \/ (exists cause,
          is_exception cause = true
          /\ e = RuntimeError ("Speech synthesis failed: " ++ str cause))
    \/ is_exception e = false).
  { intros [t|e0]; [done|]. cbn.
    destruct (is_exception e0) eqn:He0; intros [= <-].
    - right. left. by exists e0.
    - right. by right. }
  unfold synthesize_speech.
  destruct (negb (_initialized self) || bool_decide (kokoro_pipeline self = None)).
  { intros [= <-]. by left. }
  destruct (_synthesize_sync E self txt voice w) as [r w1]. apply Hwrap.
Qed.
End Frames.

(** X4: whatever the collaborators do, [transcribe_audio] leaves the service
    object as it is, removes no file that existed before, leaves at most the
    one file it created, and calls the engine at most once, with the language
    forced unless it is "auto". *)
Theorem transcribe_audio_frame
    (E : collaborators) (self : SpeechService) (audio : bytes) (lang : string)
    (w : world) :
  let o := transcribe_audio E self audio lang w in
  service_after o = self
  /\ files w ⊆ files (world_after o)
  /\ files (world_after o) ⊆ {[fresh (files w)]} ∪ files w
  /\ (calls (world_after o) = calls w
      \/ exists m,
           whisper_model self = Some m
           /\ calls (world_after o)
              = (calls w ++ [WhisperTranscribe m (fresh (files w)) (language_option lang)])%list).
Proof.
  intros o.
  destruct (transcribe_audio_effects E self audio lang w) as (Hs & Hf & Hc).
  fold o in Hs, Hf, Hc. split; [exact Hs|].
  split; [|split; [|exact Hc]]; destruct Hf as [-> | ->].
  - done.
  - apply union_subseteq_r.
  - apply union_subseteq_r.
  - done.
Qed.

(** X5: [synthesize_speech] never touches the staging files nor the service
    object, calls the TTS pipeline at most once, with the text and the voice
    it was given, and does nothing with the pitch: any other pitch gives the
    same outcome. *)
Theorem synthesize_speech_frame
    (E : collaborators) (self : SpeechService) (txt voice : string)
    (speed pitch : Q) (w : world) :
  let o := synthesize_speech E self txt voice speed pitch w in
  service_after o = self
  /\ files (world_after o) = files w
  /\ (calls (world_after o) = calls w
      \/ exists p,
           kokoro_pipeline self = Some p
           /\ calls (world_after o) = (calls w ++ [KokoroSynthesize p txt voice])%list)
  /\ (forall pitch', synthesize_speech E self txt voice speed pitch' w = o).
Proof.
  intros o.
  destruct (synthesize_speech_effects E self txt voice speed pitch w)
    as (Hs & Hf & Hc).
  split; [exact Hs|]. split; [exact Hf|]. split; [exact Hc|].
  intros pitch'. reflexivity.
Qed.

(** X6: an [Exception] never leaves the two request methods as it was
    raised: what leaves them is a [RuntimeError], with the guard's message or
    with the message of the cause after the method's prefix, or else an
    exception that [except Exception] does not catch (the cancellation of the
    request at the [await], for one). *)
Theorem service_exceptions_are_wrapped
    (E : collaborators) (self : SpeechService) (w : world) :
  (forall audio lang e,
     returned (transcribe_audio E self audio lang w) = Raise e ->
     e = RuntimeError "Whisper model not initialized"
     \/ (exists cause,
           is_exception cause = true
           /\ e = RuntimeError ("Transcription failed: " ++ str cause))
     \/ is_exception e = false)
  /\ (forall txt voice speed pitch e,
        returned (synthesize_speech E self txt voice speed pitch w) = Raise e ->
        e = RuntimeError "Kokoro pipeline not initialized"
        \/ (exists cause,
              is_exception cause = true
              /\ e = RuntimeError ("Speech synthesis failed: " ++ str cause))
        \/ is_exception e = false).
Proof.
  split.
  - intros audio lang e. apply transcribe_audio_raises.
  - intros txt voice speed pitch e. apply synthesize_speech_raises.
Qed.

Lemma service_exceptions_are_wrapped_witness :
  let E := deployment true false two_chunks in
  RuntimeError "Transcription failed: [Errno 28] No space left on device"
  = RuntimeError "Whisper model not initialized"
  \/ (exists cause,
        is_exception cause = true
        /\ RuntimeError "Transcription failed: [Errno 28] No space left on device"
           = RuntimeError ("Transcription failed: " ++ str cause))
  \/ is_exception
       (RuntimeError "Transcription failed: [Errno 28] No space left on device")
     = false.
Proof.
  intros E.
  apply (proj1 (service_exceptions_are_wrapped E ready empty_world)
           (String.list_byte_of_string "RIFF") "auto").
  reflexivity.
Defined.

(** ** Segments and speed *)


Lemma stride_length {A} (l : list A) (skip step : nat) :
  (1 <= step)%nat ->
  length (stride skip step l) = ((length l + step - 1 - skip) / step)%nat.
Proof.
  intros Hstep. revert skip.
  induction l as [|x l IH]; intros skip.
  - symmetry. apply Nat.div_small. simpl. lia.
  - destruct skip as [|skip]; cbn [stride length]; rewrite IH.
    + replace (S (length l) + step - 1 - 0)%nat
        with (length l + 1 * step)%nat by lia.
      rewrite Nat.div_add by lia.
      replace (length l + step - 1 - (step - 1))%nat with (length l) by lia.
      lia.
    + f_equal. lia.
Qed.


Lemma concat_all_empty {A} (ls : list (list A)) :
  Forall (fun l => l = []) ls -> concat ls = [].
Proof. induction 1 as [|l ls -> _ IH]; simpl; [done|exact IH]. Qed.

(** X7: when the TTS generator yields at least one segment, the waveform is
    the segments' samples in the order they were generated, none lost and
    none added; one second of silence is not substituted, even if every
    segment is empty. *)
Theorem synthesis_concatenates_segments
    (E : collaborators) (self : SpeechService) (p : handle)
    (txt voice : string) (w : world)
    (generated : list (string * string * waveform)) :
  kokoro_pipeline self = Some p ->
  kokoro_generate E p txt voice = Ok generated ->
  generated <> [] ->
  exists audio,
    (_synthesize_sync E self txt voice w).1 = Ok audio
    /\ audio = concat (map snd generated)
    /\ length audio = list_sum (map (fun s => length (snd s)) generated)
    /\ (Forall (fun s => snd s = []) generated ->
        audio = [] /\ audio <> np_zeros 24000).
Proof.
  intros Hp Hgen Hne.
  assert (Hmap : map (fun '(gs, ps, audio) => audio) generated
                 = map snd generated).
  { apply map_ext. by intros [[gs ps] audio]. }
  exists (concat (map snd generated)). split.
  { unfold _synthesize_sync. rewrite Hp, Hgen, Hmap.
    destruct generated as [|s generated]; [done|reflexivity]. }
  split; [done|]. split.
  { rewrite length_concat, map_map. reflexivity. }
  intros Hempty.
  assert (Hnil : concat (map snd generated) = []).
  { apply concat_all_empty. by apply Forall_map. }
  split; [exact Hnil|]. rewrite Hnil. intros Hz.
  apply (f_equal length) in Hz. unfold np_zeros in Hz.
  rewrite length_replicate in Hz. simpl length in Hz. lia.
Qed.

Lemma synthesis_concatenates_segments_witness :
  let E := deployment true true two_chunks in
  exists audio,
    (_synthesize_sync E ready "Hello world" "af_heart" empty_world).1 = Ok audio
    /\ audio = [0; 1 # 4; 1 # 2; 1 # 4; 0]%Q
    /\ length audio = 5%nat
    /\ (Forall (fun s => snd s = []) two_chunks ->
        audio = [] /\ audio <> np_zeros 24000).
Proof.
  intros E.
  apply (synthesis_concatenates_segments E ready (Handle 2)
           "Hello world" "af_heart" empty_world two_chunks).
  - reflexivity.
  - reflexivity.
  - discriminate.
Defined.

(** X8: without librosa, a speed factor strictly between 0.5 and 2.0 changes
    nothing: the fallback truncates the factor (or its inverse) to 1 and
    returns the waveform as it is. *)
Theorem fallback_ignores_speed_between_half_and_two
    (E : collaborators) (audio : waveform) (speed : Q) :
  librosa_time_stretch E = None ->
  (1 # 2 < speed)%Q -> (speed < 2)%Q ->
  _adjust_speed E audio speed = Ok audio.
Proof.
  intros Hlib Hlo Hhi.
  assert (Hpos : (0 < speed)%Q) by (by apply Qlt_trans with (1 # 2)%Q).
  destruct (Q_dec speed 1) as [[Hlt|Hgt]|Heq].
  - rewrite adjust_speed_slower by done.
    rewrite (floor_eq_1 (1 / speed))
      by (first [apply Qlt_le_weak; by apply inverse_gt_1
                |by apply inverse_lt_2]).
    change (Z.to_nat 1) with 1%nat. by rewrite repeat_one.
  - rewrite adjust_speed_faster by done.
    rewrite (floor_eq_1 speed) by (first [by apply Qlt_le_weak|done]).
    change (Z.to_nat 1) with 1%nat. by rewrite stride_one.
  - by apply adjust_speed_unit.
Qed.

Lemma fallback_ignores_speed_between_half_and_two_witness :
  let E := deployment true true two_chunks in
  _adjust_speed E [1; 2; 3]%Q (3 # 2) = Ok [1; 2; 3]%Q
  /\ _adjust_speed E [1; 2; 3]%Q (3 # 4) = Ok [1; 2; 3]%Q.
Proof.
  intros E. split.
  - exact (fallback_ignores_speed_between_half_and_two E [1; 2; 3]%Q (3 # 2)
             eq_refl eq_refl eq_refl).
  - exact (fallback_ignores_speed_between_half_and_two E [1; 2; 3]%Q (3 # 4)
             eq_refl eq_refl eq_refl).
Defined.

(** X9: without librosa, at every speed that the request model accepts, the
    documented extremes 0.5 and 2.0 among them, the adjustment returns
    without raising: at 2.0 it keeps every second sample, half of them
    rounded up; at 0.5 it writes every sample twice; at every speed between
    it leaves the waveform as it is.  A waveform that has samples keeps at
    least one. *)
Theorem fallback_valid_speed
    (E : collaborators) (audio : waveform) (speed : Q) :
  librosa_time_stretch E = None ->
  (1 # 2 <= speed)%Q -> (speed <= 2)%Q ->
  exists out,
    _adjust_speed E audio speed = Ok out
    /\ ((speed == 2)%Q ->
        out = stride 0 2 audio
        /\ length out = ((length audio + 1) / 2)%nat)
    /\ ((speed == 1 # 2)%Q ->
        out = flat_map (fun x => [x; x]) audio
        /\ length out = (2 * length audio)%nat)
    /\ ((1 # 2 < speed)%Q -> (speed < 2)%Q -> out = audio)
    /\ ((length audio + 1) / 2 <= length out <= 2 * length audio)%nat
    /\ (audio <> [] -> out <> []).
Proof.
  intros Hlib Hlo Hhi.
  assert (Hhalf : ((length audio + 1) / 2 <= length audio)%nat).
  { destruct (decide (length audio = 0)%nat) as [->|Hn]; [done|].
    apply Nat.Div0.div_le_upper_bound. lia. }
  assert (Hstride : length (stride 0 2 audio) = ((length audio + 1) / 2)%nat).
  { rewrite stride_length by lia. f_equal. lia. }
  assert (Hrepeat : length (flat_map (fun x => replicate 2 x) audio)
                    = (2 * length audio)%nat) by apply repeat_length.
  eexists. split; [by apply adjust_speed_valid_range|].
  destruct (Qeq_bool speed 2) eqn:H2;
    [|destruct (Qeq_bool speed (1 # 2)) eqn:Hhalf'].
  - apply Qeq_bool_eq in H2.
    split; [done|]. split.
    { intros Heq. rewrite Heq in H2. discriminate H2. }
    split.
    { intros _ Hlt. rewrite H2 in Hlt. by apply Qlt_irrefl in Hlt. }
    split; [lia|].
    intros Hne Hnil. destruct audio; [done|]. discriminate Hnil.
  - apply Qeq_bool_eq in Hhalf'.
    split.
    { intros Heq. apply Qeq_eq_bool in Heq. congruence. }
    split; [done|]. split.
    { intros Hlt _. rewrite Hhalf' in Hlt. by apply Qlt_irrefl in Hlt. }
    split; [lia|].
    intros Hne Hnil. destruct audio; [done|]. discriminate Hnil.
  - split.
    { intros Heq. apply Qeq_eq_bool in Heq. congruence. }
    split.
    { intros Heq. apply Qeq_eq_bool in Heq. congruence. }
    split; [done|]. split; [lia|done].
Qed.

Lemma fallback_valid_speed_witness :
  let E := deployment true true two_chunks in
  exists out,
    _adjust_speed E [1; 2; 3; 4; 5; 6; 7]%Q 2 = Ok out
    /\ ((2 == 2)%Q ->
        out = stride 0 2 [1; 2; 3; 4; 5; 6; 7]%Q
        /\ length out = ((7 + 1) / 2)%nat)
    /\ ((2 == 1 # 2)%Q ->
        out = flat_map (fun x => [x; x]) [1; 2; 3; 4; 5; 6; 7]%Q
        /\ length out = (2 * 7)%nat)
    /\ ((1 # 2 < 2)%Q -> (2 < 2)%Q -> out = [1; 2; 3; 4; 5; 6; 7]%Q)
    /\ ((7 + 1) / 2 <= length out <= 2 * 7)%nat
    /\ (([1; 2; 3; 4; 5; 6; 7]%Q : waveform) <> [] -> out <> []).
Proof.
  intros E.
  apply (fallback_valid_speed E [1; 2; 3; 4; 5; 6; 7]%Q 2 eq_refl);
    discriminate.
Defined.



(** ** The life of the service object *)

Lemma reachable_handles (self : SpeechService) :
  reachable self ->
  (kokoro_pipeline self <> None <-> _initialized self = true)
  /\ (_initialized self = true -> whisper_model self <> None).
Proof.
  induction 1 as [|E self w _ [IHk IHw]|E self w _ _
                  |E self audio lang w _ IH|E self txt voice speed pitch w _ IH].
  - split; [split; [by intros []|done]|done].
  - unfold initialize.
    destruct (_initialized self) eqn:Hi;
      [cbn; rewrite Hi; exact (conj IHk IHw)|].
    destruct (whisper_load_model E "turbo") as [m|e];
      [|cbn; rewrite Hi; exact (conj IHk IHw)].
    destruct (KPipeline E "a") as [p|e]; cbn.
    + split; [split; done|done].
    + split; [|done].
      split; [intros Hp; apply IHk in Hp; congruence|done].
  - rewrite cleanup_outcome. cbn. split; [split; [by intros []|done]|done].
  - by rewrite (proj1 (transcribe_audio_effects E self audio lang w)).
  - by rewrite (proj1 (synthesize_speech_effects E self txt voice speed pitch w)).
Qed.

(** X11: whatever sequence of method calls the service object has been
    through, and whatever the loaders and engines answered, its health report
    shows [kokoro] exactly when it shows [initialized], and never
    [initialized] without [whisper]; a call that passes the flag of the guard
    therefore finds both models. *)
Theorem reachable_health_consistent (self : SpeechService) :
  reachable self ->
  let h := get_health_status self in
  kokoro h = initialized h
  /\ (initialized h = true -> whisper h = true)
  /\ (_initialized self = true ->
      exists m p, whisper_model self = Some m /\ kokoro_pipeline self = Some p).
Proof.
  intros Hreach h. destruct (reachable_handles self Hreach) as [Hk Hw].
  unfold h, get_health_status. cbn. split; [|split].
  - destruct (_initialized self) eqn:Hi.
    + apply bool_decide_eq_true_2. by apply Hk.
    + apply bool_decide_eq_false_2. intros Hp. by apply Hk in Hp.
  - intros Hi. apply bool_decide_eq_true_2. by apply Hw.
  - intros Hi.
    destruct (whisper_model self) as [m|] eqn:Hm; [|by destruct (Hw Hi)].
    destruct (kokoro_pipeline self) as [p|] eqn:Hp;
      [|by destruct (proj2 Hk Hi)].
    by exists m, p.
Qed.

Lemma reachable_health_consistent_witness :
  let E := deployment false true two_chunks in
  let self := service_after (initialize E __init__ empty_world) in
  kokoro (get_health_status self) = initialized (get_health_status self)
  /\ (initialized (get_health_status self) = true ->
      whisper (get_health_status self) = true)
  /\ (_initialized self = true ->
      exists m p, whisper_model self = Some m /\ kokoro_pipeline self = Some p).
Proof.
  intros E self.
  exact (reachable_health_consistent self
           (reachable_initialize E __init__ empty_world reachable_new)).
Defined.

(** X12: [cleanup] returns the service to the state of a new object: the
    next [initialize] asks for the Whisper model again, whatever the state
    before the cleanup was, and when it returns normally both models are
    loaded anew and the flag is set. *)
Theorem cleanup_then_initialize_reloads
    (E E' : collaborators) (self : SpeechService) (w w' : world) :
  let cleaned := service_after (cleanup E self w) in
  let o := initialize E' cleaned w' in
  cleaned = __init__
  /\ (exists rest, calls (world_after o)
                   = (calls w' ++ LoadWhisper "turbo" :: rest)%list)
  /\ (returned o = Ok tt ->
      exists m p,
        whisper_load_model E' "turbo" = Ok m /\ KPipeline E' "a" = Ok p
        /\ service_after o
           = {| whisper_model := Some m; kokoro_pipeline := Some p;
                _initialized := true |}
        /\ calls (world_after o)
           = (calls w' ++ [LoadWhisper "turbo"; LoadKokoro "a"])%list).
Proof.
  intros cleaned o. unfold o, cleaned. rewrite cleanup_outcome.
  change (service_after (Ok tt, ?s, ?w0)) with s.
  split; [reflexivity|].
  unfold initialize. cbn [_initialized].
  destruct (whisper_load_model E' "turbo") as [m|e].
  - destruct (KPipeline E' "a") as [p|e]; cbn.
    + split; [exists [LoadKokoro "a"]; by rewrite <- app_assoc|].
      intros _. exists m, p. by rewrite <- app_assoc.
    + split; [exists [LoadKokoro "a"]; by rewrite <- app_assoc|done].
  - cbn. split; [by exists []|done].
Qed.

(** X13: [initialize] lets a loader's exception through as it is and leaves
    the flag false, so it can be called again: a later call whose loaders
    both succeed loads the two models (the Whisper model a second time if the
    failed call had loaded it) and makes the service ready. *)
Theorem initialize_retry_after_failure
    (E E' : collaborators) (self : SpeechService) (w w' : world)
    (e : exn) (m p : handle) :
  returned (initialize E self w) = Raise e ->
  whisper_load_model E' "turbo" = Ok m ->
  KPipeline E' "a" = Ok p ->
  let failed := initialize E self w in
  (whisper_load_model E "turbo" = Raise e \/ KPipeline E "a" = Raise e)
  /\ _initialized (service_after failed) = false
  /\ initialize E' (service_after failed) w'
     = (Ok tt,
        {| whisper_model := Some m; kokoro_pipeline := Some p;
           _initialized := true |},
        record_call (LoadKokoro "a") (record_call (LoadWhisper "turbo") w')).
Proof.
  intros Hraise Hm Hp failed.
  assert (Hflag : _initialized (service_after failed) = false).
  { unfold failed. rewrite (initialize_raise_keeps_flag E self w e Hraise).
    revert Hraise. unfold initialize.
    by destruct (_initialized self). }
  split; [|split; [exact Hflag|]].
  - revert Hraise. unfold initialize.
    destruct (_initialized self); [done|].
    destruct (whisper_load_model E "turbo") as [m0|e0].
    + destruct (KPipeline E "a") as [p0|e0]; [done|].
      intros [= ->]. by right.
    + intros [= ->]. by left.
  - unfold initialize at 1. by rewrite Hflag, Hm, Hp.
Qed.

Lemma initialize_retry_after_failure_witness :
  let E := deployment false true two_chunks in
  let E' := deployment true true two_chunks in
  let failed := initialize E __init__ empty_world in
  initialize E' (service_after failed) (world_after failed)
  = (Ok tt, ready,
     record_call (LoadKokoro "a")
       (record_call (LoadWhisper "turbo") (world_after failed))).
Proof.
  intros E E' failed.
  exact (proj2 (proj2 (initialize_retry_after_failure E E' __init__ empty_world
                         (world_after failed)
                         (OtherException "voice pack not found")
                         (Handle 1) (Handle 2) eq_refl eq_refl eq_refl))).
Defined.

Lemma cleanup_then_initialize_reloads_witness :
  let E := deployment true true two_chunks in
  let o := initialize E (service_after (cleanup E ready empty_world)) empty_world in
  exists m p,
    whisper_load_model E "turbo" = Ok m /\ KPipeline E "a" = Ok p
    /\ service_after o
       = {| whisper_model := Some m; kokoro_pipeline := Some p;
            _initialized := true |}
    /\ calls (world_after o) = [LoadWhisper "turbo"; LoadKokoro "a"].
Proof.
  intros E o.
  exact (proj2 (proj2 (cleanup_then_initialize_reloads E E ready
                         empty_world empty_world)) eq_refl).
Defined.

(** ** The HTTP layer *)

Lemma calculate_confidence_range (result : whisper_result) :
  (0 <= _calculate_confidence result <= 1)%R.
Proof.
  unfold _calculate_confidence.
  destruct (wr_segments result) as [[|s segs]|]; cbn [is_nonempty map];
    [lra|apply py_clamp_range|lra].
Qed.

(** [not text or len(text.strip()) == 0] holds exactly when stripping
    leaves nothing. *)
Lemma blank_text_check (txt : string) :
  String.eqb txt "" || (py_len (strip txt) =? 0)%nat = true
  <-> strip txt = "".
Proof.
  split.
  - intros [Hempty|Hlen]%orb_true_iff.
    + by apply String.eqb_eq in Hempty as ->.
    + apply py_len_zero. by apply Nat.eqb_eq.
  - intros Hstrip. apply orb_true_iff. right. by rewrite Hstrip.
Qed.

Section Endpoints.
Variable F : Main.framework.
Variable E : collaborators.




(** The synthesis handler once the request passes its two checks. *)
Lemma synthesize_endpoint_checked svc request w :
  strip (SynthesisRequest.text request) <> "" ->
  (py_len (SynthesisRequest.text request) <= 1000)%nat ->
  let o := synthesize_speech E svc (SynthesisRequest.text request)
             (SynthesisRequest.voice request) (SynthesisRequest.speed request)
             (SynthesisRequest.pitch request) w in
  Main.synthesize_speech F E (Some svc) request w
  = (match returned o with
     | Ok audio_data =>
       Main.Respond
         {| Response.content := audio_data;
            Response.media_type := "audio/wav";
            Response.headers :=
              [("Content-Disposition",
                "attachment; filename=synthesized_speech.wav")] |}
     | Raise e =>
       if is_exception e
       then Main.Error 500 ("Speech synthesis failed: " ++ str e)
       else Main.Unhandled e
     end, Some (service_after o), world_after o).
Proof.
  intros Hblank Hlen o. unfold Main.synthesize_speech.
  destruct (_ || _) eqn:Hcheck.
  { by apply blank_text_check in Hcheck. }
  destruct (Nat.ltb_spec 1000 (py_len (SynthesisRequest.text request)))
    as [Hlong|_]; [lia|].
  fold o. by destruct o as [[[b|e] svc'] w'].
Qed.

(** The transcription handler once the upload passes the content-type
    check. *)
Lemma transcribe_endpoint_checked svc audio lang w :
  Main.invalid_content_type audio = false ->
  let o := transcribe_audio E svc (UploadFile.data audio) lang w in
  Main.transcribe_audio F E (Some svc) audio lang w
  = (Main.internal_error F "Transcription failed: "
       match returned o with
       | Ok result =>
         Main.TranscriptionResponse_init F (text result) (language result)
           (confidence result) (duration result)
       | Raise e => Main.Raised (Main.ServiceException e)
       end, Some (service_after o), world_after o).
Proof.
  intros Hct o. unfold Main.transcribe_audio. rewrite Hct.
  fold o. by destruct o as [[[t|e] svc'] w'].
Qed.
End Endpoints.

(** X14: the health endpoint never answers 503: without a service object the
    503 it raises is caught by its own handler and the client receives 500
    "Health check failed"; with a service object it always answers, "healthy"
    exactly when both models are present and "degraded" otherwise, along with
    the service's own health report. *)
Theorem health_check_replies (speech_service : option SpeechService) :
  Main.status_of (Main.health_check speech_service) <> Some 503%Z
  /\ (speech_service = None ->
      Main.health_check speech_service = Main.Error 500 "Health check failed")
  /\ (forall svc, speech_service = Some svc ->
      exists body,
        Main.health_check speech_service = Main.Respond body
        /\ HealthResponse.services body = get_health_status svc
        /\ (HealthResponse.status body = "healthy"
            <-> whisper_model svc <> None /\ kokoro_pipeline svc <> None)
        /\ (HealthResponse.status body <> "healthy"
            -> HealthResponse.status body = "degraded")).
Proof.
  split; [by destruct speech_service|].
  split; [by intros ->|].
  intros svc ->. eexists. split; [reflexivity|]. split; [reflexivity|].
  cbn. destruct (whisper_model svc) as [m|], (kokoro_pipeline svc) as [p|];
    cbn; (split; [split|]); try done.
  - by intros [_ []].
  - by intros [[] _].
  - by intros [[] _].
Qed.

Lemma health_check_replies_witness :
  Main.health_check None = Main.Error 500 "Health check failed"
  /\ exists body,
       Main.health_check (Some ready) = Main.Respond body
       /\ HealthResponse.services body = get_health_status ready
       /\ (HealthResponse.status body = "healthy"
           <-> whisper_model ready <> None /\ kokoro_pipeline ready <> None)
       /\ (HealthResponse.status body <> "healthy"
           -> HealthResponse.status body = "degraded").
Proof.
  split.
  - exact (proj1 (proj2 (health_check_replies None)) eq_refl).
  - exact (proj2 (proj2 (health_check_replies (Some ready))) ready eq_refl).
Defined.

(** X15: when the startup part of [lifespan] returns normally, it has asked
    for the Whisper model and then for the Kokoro pipeline, once each, and
    the health endpoint answers "healthy" with all three flags true. *)
Theorem startup_then_healthy (E : collaborators) (w : world) :
  (Main.lifespan_startup E w).1.1 = Ok tt ->
  exists svc,
    (Main.lifespan_startup E w).1.2 = Some svc
    /\ Main.health_check (Some svc)
       = Main.Respond
           {| HealthResponse.status := "healthy";
              HealthResponse.services :=
                {| whisper := true; kokoro := true; initialized := true |};
              HealthResponse.version := "1.0.0" |}
    /\ calls (Main.lifespan_startup E w).2
       = (calls w ++ [LoadWhisper "turbo"; LoadKokoro "a"])%list.
Proof.
  unfold Main.lifespan_startup, initialize. cbn [_initialized __init__].
  destruct (whisper_load_model E "turbo") as [m|e]; [|done].
  destruct (KPipeline E "a") as [p|e]; [|done].
  intros _. eexists. split; [reflexivity|]. split; [reflexivity|].
  cbn. by rewrite <- app_assoc.
Qed.

Lemma startup_then_healthy_witness :
  let E := deployment true true two_chunks in
  exists svc,
    (Main.lifespan_startup E empty_world).1.2 = Some svc
    /\ Main.health_check (Some svc)
       = Main.Respond
           {| HealthResponse.status := "healthy";
              HealthResponse.services :=
                {| whisper := true; kokoro := true; initialized := true |};
              HealthResponse.version := "1.0.0" |}
    /\ calls (Main.lifespan_startup E empty_world).2
       = [LoadWhisper "turbo"; LoadKokoro "a"].
Proof.
  intros E. exact (startup_then_healthy E empty_world eq_refl).
Defined.


(** X17: an upload whose content type is missing or does not start with
    "audio/" is answered with 500, the detail being the rendering of the 400
    that the handler raised; the service is not called: no file is staged and
    no engine runs. *)
Theorem transcribe_endpoint_rejects_non_audio
    (F : Main.framework) (E : collaborators) (svc : SpeechService)
    (audio : UploadFile.t) (lang : string) (w : world) :
  (forall ct, UploadFile.content_type audio = Some ct ->
              String.prefix "audio/" ct = false) ->
  Main.transcribe_audio F E (Some svc) audio lang w
  = (Main.Error 500
       ("Transcription failed: "
        ++ Main.http_exception_str F 400 "Invalid audio file format"),
     Some svc, w).
Proof.
  intros Hct. unfold Main.transcribe_audio, Main.invalid_content_type.
  destruct (UploadFile.content_type audio) as [ct|]; [|done].
  by rewrite (Hct ct eq_refl), orb_true_r.
Qed.

Lemma transcribe_endpoint_rejects_non_audio_witness :
  let F := rendering in
  let E := deployment true true two_chunks in
  let audio := {| UploadFile.content_type := Some "text/plain";
                  UploadFile.data := [] |} in
  Main.transcribe_audio F E (Some ready) audio "auto" empty_world
  = (Main.Error 500 "Transcription failed: 400: Invalid audio file format",
     Some ready, empty_world).
Proof.
  intros F E audio.
  apply (transcribe_endpoint_rejects_non_audio F E ready audio "auto" empty_world).
  intros ct [= <-]. reflexivity.
Defined.

(** X18: what becomes of the text of a synthesis request.  A body without
    text, with an empty text or with a text of more than 1000 characters
    fails the validation of [SynthesisRequest] and is answered with 422; the
    handler does not run.  A body that the model accepts satisfies its
    constraints, so that the handler's own check of the length never fires;
    its check for blanks still does: a text of whitespace only is answered
    with 500, the detail rendering the 400 that the handler raised, and the
    service is not called. *)
Theorem synthesis_text_checks
    (F : Main.framework) (E : collaborators) (svc : SpeechService)
    (body : Main.synthesis_body) (w : world) :
  (Main.body_text body = None
   \/ (exists txt, Main.body_text body = Some txt
                   /\ (txt = "" \/ (1000 < py_len txt)%nat)) ->
   Main.post_synthesize F E (Some svc) body w
   = (Main.Error 422 (Main.request_validation_detail F), Some svc, w))
  /\ (forall request,
        Main.SynthesisRequest_init body = Some request ->
        valid_request request
        /\ Main.body_text body = Some (SynthesisRequest.text request)
        /\ (strip (SynthesisRequest.text request) = "" ->
            Main.post_synthesize F E (Some svc) body w
            = (Main.Error 500
                 ("Speech synthesis failed: "
                  ++ Main.http_exception_str F 400 "Text cannot be empty"),
               Some svc, w))).
Proof.
  split.
  - intros Hbad. unfold Main.post_synthesize.
    assert (Hinit : Main.SynthesisRequest_init body = None).
    { unfold Main.SynthesisRequest_init.
      destruct Hbad as [->|(txt & -> & Htxt)]; [done|].
      destruct Htxt as [->|Hlong]; [done|].
      destruct (Nat.leb_spec (py_len txt) 1000) as [Hle|_]; [lia|].
      by rewrite andb_false_r. }
    by rewrite Hinit.
  - intros request Hinit.
    assert (Hvalid : valid_request request
                     /\ Main.body_text body
                        = Some (SynthesisRequest.text request)).
    { revert Hinit. unfold Main.SynthesisRequest_init.
      destruct (Main.body_text body) as [txt|]; [|done].
      destruct (_ && _) eqn:Hcheck; [|done].
      intros [= <-].
      repeat (apply andb_true_iff in Hcheck as [Hcheck ?]).
      unfold valid_request, valid_parameters. cbn.
      split; [|done].
      repeat split;
        first [by apply Nat.leb_le | by apply Qle_bool_iff]. }
    split; [apply Hvalid|]. split; [apply Hvalid|].
    intros Hblank. unfold Main.post_synthesize, Main.synthesize_speech.
    rewrite Hinit. by rewrite (proj2 (blank_text_check _) Hblank).
Qed.

Lemma synthesis_text_checks_witness :
  let F := rendering in
  let E := deployment true true two_chunks in
  let empty := {| Main.body_text := Some "";
                  Main.body_voice := None;
                  Main.body_speed := None;
                  Main.body_pitch := None |} in
  let blank := {| Main.body_text := Some "   ";
                  Main.body_voice := None;
                  Main.body_speed := None;
                  Main.body_pitch := None |} in
  Main.post_synthesize F E (Some ready) empty empty_world
  = (Main.Error 422 (Main.request_validation_detail F), Some ready, empty_world)
  /\ Main.post_synthesize F E (Some ready) blank empty_world
     = (Main.Error 500 "Speech synthesis failed: 400: Text cannot be empty",
        Some ready, empty_world).
Proof.
  intros F E empty blank. split.
  - apply (proj1 (synthesis_text_checks F E ready empty empty_world)).
    right. exists "". split; [reflexivity|by left].
  - apply (proj2 (synthesis_text_checks F E ready blank empty_world)
             {| SynthesisRequest.text := "   ";
                SynthesisRequest.voice := "af_heart";
                SynthesisRequest.speed := 1;
                SynthesisRequest.pitch := 1 |} eq_refl).
    reflexivity.
Defined.

(** X19: the synthesis endpoint answers 200 exactly when the text is not
    blank, has at most 1000 characters and the service returns; the body is
    then the service's bytes, untouched, served as "audio/wav" with the fixed
    attachment header. *)
Theorem synthesize_endpoint_ok_iff
    (F : Main.framework) (E : collaborators) (svc : SpeechService)
    (request : SynthesisRequest.t) (w : world) (body : Response.t) :
  let txt := SynthesisRequest.text request in
  (Main.synthesize_speech F E (Some svc) request w).1.1 = Main.Respond body
  <-> strip txt <> ""
      /\ (py_len txt <= 1000)%nat
      /\ returned (synthesize_speech E svc txt (SynthesisRequest.voice request)
                     (SynthesisRequest.speed request)
                     (SynthesisRequest.pitch request) w)
         = Ok (Response.content body)
      /\ Response.media_type body = "audio/wav"
      /\ Response.headers body
         = [("Content-Disposition", "attachment; filename=synthesized_speech.wav")].
Proof.
  intros txt. unfold txt.
  destruct (decide (strip (SynthesisRequest.text request) = "")) as [Hb|Hb].
  { unfold Main.synthesize_speech.
    rewrite (proj2 (blank_text_check _) Hb). cbn.
    split; [done|]. by intros [? _]. }
  destruct (le_lt_dec (py_len (SynthesisRequest.text request)) 1000)
    as [Hlen|Hlong].
  - rewrite synthesize_endpoint_checked by done. cbn [fst].
    destruct (returned _) as [b|e]; split.
    + intros [= <-]. by repeat split.
    + intros (_ & _ & Hc & Hm & Hh). apply Ok_inj in Hc.
      destruct body as [c m h]. cbn in Hc, Hm, Hh. by subst.
    + by destruct (is_exception e).
    + by intros (_ & _ & Hc & _).
  - unfold Main.synthesize_speech.
    destruct (_ || _) eqn:Hcheck; [by apply blank_text_check in Hcheck|].
    rewrite (proj2 (Nat.ltb_lt _ _) Hlong). cbn.
    split; [done|]. intros (_ & Hlen & _). lia.
Qed.

Lemma synthesize_endpoint_ok_iff_witness :
  let F := rendering in
  let E := deployment true true two_chunks in
  let request := {| SynthesisRequest.text := "Hello world";
                    SynthesisRequest.voice := "af_heart";
                    SynthesisRequest.speed := 1;
                    SynthesisRequest.pitch := 1 |} in
  let body := {| Response.content :=
                   wav_pcm16 [0; 1 # 4; 1 # 2; 1 # 4; 0]%Q 24000;
                 Response.media_type := "audio/wav";
                 Response.headers :=
                   [("Content-Disposition",
                     "attachment; filename=synthesized_speech.wav")] |} in
  (Main.synthesize_speech F E (Some ready) request empty_world).1.1
  = Main.Respond body.
Proof.
  intros F E request body.
  apply (synthesize_endpoint_ok_iff F E ready request empty_world body).
  split; [discriminate|]. split; [vm_compute; lia|].
  split; [reflexivity|]. split; reflexivity.
Defined.

(** X20: when the service method raises an [Exception], either endpoint
    answers 500 with its prefix followed by the service's message; as the
    service has already put the same prefix before the message of the cause,
    the client reads the prefix twice, unless the failure was the service's
    guard.  An exception that is not an [Exception] (the request was
    cancelled) leaves the handler too, and no response is built. *)
Theorem service_failure_detail
    (F : Main.framework) (E : collaborators) (svc : SpeechService) (w : world)
    (e : exn) :
  (forall audio lang,
     Main.invalid_content_type audio = false ->
     returned (transcribe_audio E svc (UploadFile.data audio) lang w) = Raise e ->
     (Main.transcribe_audio F E (Some svc) audio lang w).1.1
     = (if is_exception e
        then Main.Error 500 ("Transcription failed: " ++ str e)
        else Main.Unhandled e)
     /\ (is_exception e = true ->
         str e = "Whisper model not initialized"
         \/ exists cause,
              str e = "Transcription failed: " ++ str cause))
  /\ (forall request,
        strip (SynthesisRequest.text request) <> "" ->
        (py_len (SynthesisRequest.text request) <= 1000)%nat ->
        returned (synthesize_speech E svc (SynthesisRequest.text request)
                    (SynthesisRequest.voice request)
                    (SynthesisRequest.speed request)
                    (SynthesisRequest.pitch request) w) = Raise e ->
        (Main.synthesize_speech F E (Some svc) request w).1.1
        = (if is_exception e
           then Main.Error 500 ("Speech synthesis failed: " ++ str e)
           else Main.Unhandled e)
        /\ (is_exception e = true ->
            str e = "Kokoro pipeline not initialized"
            \/ exists cause,
                 str e = "Speech synthesis failed: " ++ str cause)).
Proof.
  split.
  - intros audio lang Hct Hraise. split.
    + rewrite transcribe_endpoint_checked by done. cbn [fst].
      by rewrite Hraise.
    + intros He.
      apply transcribe_audio_raises in Hraise
        as [->|[(cause & _ & ->)|Hne]];
        [by left|right; by exists cause|congruence].
  - intros request Hblank Hlen Hraise. split.
    + rewrite synthesize_endpoint_checked by done. cbn [fst].
      by rewrite Hraise.
    + intros He.
      apply synthesize_speech_raises in Hraise
        as [->|[(cause & _ & ->)|Hne]];
        [by left|right; by exists cause|congruence].
Qed.

Lemma service_failure_detail_witness :
  let F := rendering in
  let E := deployment true false two_chunks in
  let audio := {| UploadFile.content_type := Some "audio/wav";
                  UploadFile.data := [] |} in
  (Main.transcribe_audio F E (Some ready) audio "auto" empty_world).1.1
  = Main.Error 500
      "Transcription failed: Transcription failed: [Errno 28] No space left on device".
Proof.
  intros F E audio.
  exact (proj1 (proj1 (service_failure_detail F E ready empty_world
                         (RuntimeError
                            "Transcription failed: [Errno 28] No space left on device"))
                  audio "auto" eq_refl eq_refl)).
Defined.

(** X21: when the service returns a transcription, the endpoint passes its
    four fields through unchanged, provided the duration is not negative; a
    negative duration reported by the engine fails the response model and the
    client receives 500.  The confidence never fails the model: it is always
    within the model's bounds. *)
Theorem transcribe_endpoint_reply
    (F : Main.framework) (E : collaborators) (svc : SpeechService)
    (audio : UploadFile.t) (lang : string) (w : world) (t : transcription) :
  Main.invalid_content_type audio = false ->
  returned (transcribe_audio E svc (UploadFile.data audio) lang w) = Ok t ->
  (Main.transcribe_audio F E (Some svc) audio lang w).1.1
  = if Qle_bool 0 (duration t)
    then Main.Respond
           {| TranscriptionResponse.text := text t;
              TranscriptionResponse.language := language t;
              TranscriptionResponse.confidence := confidence t;
              TranscriptionResponse.duration := duration t |}
    else Main.Error 500
           ("Transcription failed: "
            ++ Main.validation_error_str F (confidence t) (duration t)).
Proof.
  intros Hct Hret.
  rewrite transcribe_endpoint_checked by done. cbn [fst]. rewrite Hret.
  apply transcribe_audio_returns in Hret as [result ->].
  cbn [text language confidence duration].
  destruct (calculate_confidence_range result) as [Hlo Hhi].
  unfold Main.TranscriptionResponse_init.
  destruct (Rle_dec 0 (_calculate_confidence result)); [|done].
  destruct (Rle_dec (_calculate_confidence result) 1); [|done].
  by destruct (Qle_bool 0 _).
Qed.

Lemma transcribe_endpoint_reply_witness :
  let F := rendering in
  let E := deployment true true two_chunks in
  let audio := {| UploadFile.content_type := Some "audio/wav";
                  UploadFile.data := [] |} in
  let result := {| wr_text := " two coffees please ";
                   wr_language := Some "en";
                   wr_duration := Some (3 # 2);
                   wr_segments := Some [ {| avg_logprob := Some (-1)%R |} ] |} in
  (Main.transcribe_audio F E (Some ready) audio "auto" empty_world).1.1
  = Main.Respond
      {| TranscriptionResponse.text := strip " two coffees please ";
         TranscriptionResponse.language := "en";
         TranscriptionResponse.confidence := _calculate_confidence result;
         TranscriptionResponse.duration := 3 # 2 |}.
Proof.
  intros F E audio result.
  exact (transcribe_endpoint_reply F E ready audio "auto" empty_world
           {| text := strip " two coffees please ";
              language := "en";
              confidence := _calculate_confidence result;
              duration := 3 # 2 |} eq_refl eq_refl).
Defined.

(** ** The launcher *)

Lemma setdefault_lookup (key value : string) (env : gmap string string)
    (k : string) :
  StartService.setdefault key value env !! k
  = if decide (key = k) then Some (default value (env !! key)) else env !! k.
Proof.
  unfold StartService.setdefault.
  destruct (env !! key) as [v|] eqn:Hkey; destruct (decide (key = k)) as [<-|Hne].
  - by rewrite Hkey.
  - done.
  - by rewrite lookup_insert_eq.
  - by rewrite lookup_insert_ne.
Qed.

Lemma start_service_process (S : StartService.system) (host : string)
    (port : Z) (reload : bool) (p : StartService.process) :
  (StartService.start_service S host port reload p).2
  = {| StartService.cwd := StartService.cwd p;
       StartService.environ :=
         StartService.setdefault "PORT" (pretty port)
           (StartService.setdefault "HOST" host (StartService.environ p));
       StartService.effects :=
         (StartService.effects p
          ++ [StartService.UvicornRun host port reload])%list |}.
Proof.
  unfold StartService.start_service.
  destruct (StartService.uvicorn_run S host port reload) as [|e]; [done|].
  destruct e; try done. all: by destruct (is_exception _).
Qed.

(** X22: what the launcher runs.  It always moves to the script's directory;
    [--install] wins over [--check] and runs pip on the requirements file
    beside the script, if that file exists; [--check] runs nothing; without
    either flag the server is started, on the host, port and reload flag of
    the command line, only if the six imports succeed. *)
Theorem main_effects
    (S : StartService.system) (args : StartService.Args)
    (p : StartService.process) :
  let after := (StartService.main S args p).2 in
  StartService.cwd after = StartService.script_dir S
  /\ StartService.effects after
     = (StartService.effects p
        ++ (if StartService.install args then
              if StartService.requirements_exists S
              then [StartService.PipInstall
                      (StartService.script_dir S ++ "/requirements.txt")]
              else []
            else if StartService.check args then []
            else if StartService.imports_ok S
            then [StartService.UvicornRun (StartService.host args)
                    (StartService.port args) (StartService.reload args)]
            else []))%list.
Proof.
  unfold StartService.main, StartService.install_dependencies,
    StartService.check_dependencies.
  destruct (StartService.install args).
  - destruct (StartService.requirements_exists S); cbn.
    + by destruct (StartService.pip_install_ok S).
    + by rewrite app_nil_r.
  - destruct (StartService.check args).
    + destruct (StartService.imports_ok S); cbn; by rewrite app_nil_r.
    + destruct (StartService.imports_ok S); cbn; [|by rewrite app_nil_r].
      pose proof (start_service_process S (StartService.host args)
                    (StartService.port args) (StartService.reload args)
                    {| StartService.cwd := StartService.script_dir S;
                       StartService.environ := StartService.environ p;
                       StartService.effects := StartService.effects p |}) as Hp.
      destruct (StartService.start_service _ _ _ _ _) as [[ok|e] p1];
        cbn in Hp; by rewrite Hp.
Qed.

(** X23: the exit status of the launcher.  With [--install] it is 0 if the
    requirements file exists and pip succeeds, and 1 if not; without it, it
    is 1 when an import is missing and 0 after a successful [--check].  When
    the server is started, the status is 0 if [uvicorn.run] returns or is
    interrupted from the keyboard, 0 also if it raises an [Exception]
    ([start_service] then returns [False], which [main] does not look at),
    and the status that uvicorn itself passes to [sys.exit] when it ends that
    way, as it does when the server cannot start. *)
Theorem main_exit_status
    (S : StartService.system) (args : StartService.Args)
    (p : StartService.process) :
  let status := (StartService.main S args p).1 in
  let outcome :=
    StartService.uvicorn_run S (StartService.host args)
      (StartService.port args) (StartService.reload args) in
  (StartService.install args = true ->
   status = if StartService.requirements_exists S
               && StartService.pip_install_ok S
            then 0%Z else 1%Z)
  /\ (StartService.install args = false ->
      StartService.imports_ok S = false -> status = 1%Z)
  /\ (StartService.install args = false ->
      StartService.imports_ok S = true ->
      (StartService.check args = true -> status = 0%Z)
      /\ (StartService.check args = false ->
          (outcome = StartService.Served
           \/ outcome = StartService.Raised KeyboardInterrupt ->
           status = 0%Z)
          /\ (forall e p0,
                outcome = StartService.Raised e ->
                is_exception e = true ->
                (StartService.start_service S (StartService.host args)
                   (StartService.port args) (StartService.reload args) p0).1
                = Ok false
                /\ status = 0%Z)
          /\ (forall code,
                outcome = StartService.Raised (SystemExit code) ->
                status = code))).
Proof.
  intros status outcome. unfold status, outcome.
  unfold StartService.main, StartService.install_dependencies,
    StartService.check_dependencies, StartService.start_service.
  split; [|split].
  - intros ->.
    by destruct (StartService.requirements_exists S),
         (StartService.pip_install_ok S).
  - intros -> ->. by destruct (StartService.check args).
  - intros -> ->. split; [by intros ->|]. intros ->. cbn.
    split; [|split].
    + by intros [->| ->].
    + intros e p0 -> He. by destruct e.
    + by intros code ->.
Qed.

Lemma main_exit_status_witness :
  let S := {| StartService.script_dir := "/srv/python_service";
              StartService.imports_ok := true;
              StartService.requirements_exists := true;
              StartService.pip_install_ok := true;
              StartService.uvicorn_run := fun _ _ _ =>
                StartService.Raised (SystemExit 3) |} in
  let p := {| StartService.cwd := "/home/kiosk";
              StartService.environ := ∅;
              StartService.effects := [] |} in
  (StartService.main S StartService.default_args p).1 = 3%Z.
Proof.
  intros S p.
  exact (proj2 (proj2 (proj2 (proj2 (proj2
           (main_exit_status S StartService.default_args p))
           eq_refl eq_refl) eq_refl)) 3%Z eq_refl).
Defined.

(** X24: [start_service] never overwrites the environment: afterwards HOST
    and PORT are bound, to the values they had before if they had any and to
    the arguments (the port in decimal) if not, and every other variable is as
    it was. *)
Theorem start_service_environment
    (S : StartService.system) (host : string) (port : Z) (reload : bool)
    (p : StartService.process) :
  let before := StartService.environ p in
  let after :=
    StartService.environ (StartService.start_service S host port reload p).2 in
  after !! "HOST" = Some (default host (before !! "HOST"))
  /\ after !! "PORT" = Some (default (pretty port) (before !! "PORT"))
  /\ (forall k, k <> "HOST" -> k <> "PORT" -> after !! k = before !! k)
  /\ (forall k v, before !! k = Some v -> after !! k = Some v).
Proof.
  intros before after. unfold after, before.
  rewrite start_service_process. cbn [StartService.environ].
  split; [|split; [|split]].
  - rewrite !setdefault_lookup. by rewrite decide_False, decide_True.
  - rewrite !setdefault_lookup. rewrite decide_True by done.
    by rewrite decide_False.
  - intros k Hh Hp. rewrite !setdefault_lookup.
    by rewrite !decide_False.
  - intros k v Hk. rewrite !setdefault_lookup.
    destruct (decide ("PORT" = k)) as [<-|_].
    + rewrite decide_False by done. by rewrite Hk.
    + destruct (decide ("HOST" = k)) as [<-|_]; [by rewrite Hk|done].
Qed.

Lemma start_service_environment_witness :
  let S := {| StartService.script_dir := "/srv/python_service";
              StartService.imports_ok := true;
              StartService.requirements_exists := true;
              StartService.pip_install_ok := true;
              StartService.uvicorn_run := fun _ _ _ => StartService.Served |} in
  let p := {| StartService.cwd := "/home/kiosk";
              StartService.environ := {[ "HOST" := "127.0.0.1" ]};
              StartService.effects := [] |} in
  StartService.environ (StartService.start_service S "0.0.0.0" 8000 false p).2
    !! "HOST" = Some "127.0.0.1".
Proof.
  intros S p.
  apply (proj2 (proj2 (proj2 (start_service_environment S "0.0.0.0" 8000 false p)))).
  reflexivity.
Defined.

(** ** From the request to the reply *)

Section EndToEnd.
Variable E : collaborators.

Lemma synthesize_sync_ok self p txt voice w generated :
  kokoro_pipeline self = Some p ->
  kokoro_generate E p txt voice = Ok generated ->
  exists audio,
    _synthesize_sync E self txt voice w
    = (Ok audio, record_call (KokoroSynthesize p txt voice) w).
Proof.
  intros Hp Hgen. unfold _synthesize_sync. rewrite Hp, Hgen.
  destruct (is_nonempty _); by eexists.
Qed.

Lemma adjust_speed_fallback_total (audio : waveform) (speed : Q) :
  librosa_time_stretch E = None -> (0 < speed)%Q ->
  exists out, _adjust_speed E audio speed = Ok out.
Proof.
  intros Hlib Hpos.
  destruct (Q_dec speed 1) as [[Hlt|Hgt]|Heq]; eexists.
  - by apply adjust_speed_slower.
  - by apply adjust_speed_faster.
  - by apply adjust_speed_unit.
Qed.
End EndToEnd.

(** X25: a request that satisfies the constraints of [SynthesisRequest] and
    whose text is not blank is answered with 200 whenever the service is
    ready, the TTS generator returns and librosa is absent: within the
    validated range of the speed the fallback adjustment cannot fail.  The
    handler's own check of the length never fires on such a request. *)
Theorem valid_request_is_served
    (F : Main.framework) (E : collaborators) (svc : SpeechService) (p : handle)
    (request : SynthesisRequest.t) (w : world)
    (generated : list (string * string * waveform)) :
  valid_request request ->
  strip (SynthesisRequest.text request) <> "" ->
  _initialized svc = true ->
  kokoro_pipeline svc = Some p ->
  kokoro_generate E p (SynthesisRequest.text request)
    (SynthesisRequest.voice request) = Ok generated ->
  librosa_time_stretch E = None ->
  exists body,
    Main.synthesize_speech F E (Some svc) request w
    = (Main.Respond body, Some svc,
       record_call (KokoroSynthesize p (SynthesisRequest.text request)
                      (SynthesisRequest.voice request)) w)
    /\ Response.media_type body = "audio/wav".
Proof.
  intros (Hlen & Hlo & _) Hblank Hi Hp Hgen Hlib.
  assert (Hpos : (0 < SynthesisRequest.speed request)%Q)
    by (by apply Qlt_le_trans with (1 # 2)%Q).
  rewrite synthesize_endpoint_checked by (first [done|lia]).
  rewrite synthesize_speech_ready by (by rewrite ?Hp).
  destruct (synthesize_sync_ok E svc p _ _ w generated Hp Hgen) as [audio ->].
  destruct (adjust_speed_fallback_total E audio _ Hlib Hpos) as [out Hout].
  unfold returned, service_after, world_after. cbn [fst snd bind].
  rewrite Hout. cbn [bind reraise_as_runtime]. by eexists.
Qed.

Lemma valid_request_is_served_witness :
  let E := deployment true true two_chunks in
  let request := {| SynthesisRequest.text := "Hello world";
                    SynthesisRequest.voice := "af_heart";
                    SynthesisRequest.speed := 2;
                    SynthesisRequest.pitch := 1 # 2 |} in
  exists body,
    Main.synthesize_speech rendering E (Some ready) request empty_world
    = (Main.Respond body, Some ready,
       record_call (KokoroSynthesize (Handle 2) "Hello world" "af_heart")
         empty_world)
    /\ Response.media_type body = "audio/wav".
Proof.
  intros E request.
  apply (valid_request_is_served rendering E ready (Handle 2) request
           empty_world two_chunks).
  - unfold valid_request, valid_parameters.
    repeat split; vm_compute; (lia || discriminate).
  - discriminate.
  - reflexivity.
  - reflexivity.
  - reflexivity.
  - reflexivity.
Defined.

(** X26: the shutdown part of [lifespan] never raises and leaves the global
    holding a service object without models: from then on the health
    endpoint answers "degraded" with the three flags false, and a
    transcription request is answered with 500 and the guard's message, not
    with 503. *)
Theorem shutdown_leaves_degraded_service
    (F : Main.framework) (E E' : collaborators) (svc : SpeechService)
    (w w' : world) (audio : UploadFile.t) (lang : string) :
  let after := Main.lifespan_shutdown E (Some svc) w in
  after.1.1 = Ok tt
  /\ after.1.2 = Some __init__
  /\ Main.health_check after.1.2
     = Main.Respond
         {| HealthResponse.status := "degraded";
            HealthResponse.services :=
              {| whisper := false; kokoro := false; initialized := false |};
            HealthResponse.version := "1.0.0" |}
  /\ (Main.invalid_content_type audio = false ->
      Main.transcribe_audio F E' after.1.2 audio lang w'
      = (Main.Error 500 "Transcription failed: Whisper model not initialized",
         Some __init__, w')).
Proof.
  intros after. unfold after, Main.lifespan_shutdown.
  rewrite cleanup_outcome. cbn [fst snd].
  split; [reflexivity|]. split; [reflexivity|]. split; [reflexivity|].
  intros Hct. rewrite transcribe_endpoint_checked by done.
  rewrite transcribe_audio_guard by (by left). reflexivity.
Qed.

Lemma shutdown_leaves_degraded_service_witness :
  let E := deployment true true two_chunks in
  let audio := {| UploadFile.content_type := Some "audio/wav";
                  UploadFile.data := [] |} in
  Main.transcribe_audio rendering E
    (Main.lifespan_shutdown E (Some ready) empty_world).1.2
    audio "auto" empty_world
  = (Main.Error 500 "Transcription failed: Whisper model not initialized",
     Some __init__, empty_world).
Proof.
  intros E audio.
  exact (proj2 (proj2 (proj2 (shutdown_leaves_degraded_service rendering E E
                                ready empty_world empty_world audio "auto")))
           eq_refl).
Defined.
